(** * supabase_integration: the items service

    A shallow embedding of [supabase_integration.py]: the [Category]
    enumeration, the [Item] model, the query builder of the store client,
    the five route handlers, and the parameter validation that the route
    signatures declare.  The remote store is a dependency that is passed
    explicitly ([execute]); every call made through it is recorded, so that
    statements about which queries a handler issues can be made.

    A handler is modelled up to the value it returns or the exception it
    raises; a route adds the validation of the parameters before the handler
    and of the declared return type after it, and the response that the
    framework builds from the outcome.  A store call fails where its body
    cannot be written as JSON.  Output on the console and failures on the
    side of the store (network, authorisation) are outside the model: the
    properties speak of the runs in which the store answers. *)

From Stdlib Require Import String List ZArith Bool Lia.
From Stdlib Require Import Floats.SpecFloat.
Import ListNotations.

Local Open Scope string_scope.
Local Open Scope Z_scope.
Local Open Scope list_scope.

(** ** Data model *)

(** [class Category(Enum)]: two members, each with a string value. *)
Inductive Category : Type :=
| TOOLS
| CONSUMABLES.

(** [Category.value] *)
Definition Category_value (c : Category) : string :=
  match c with
  | TOOLS => "tools"
  | CONSUMABLES => "consumables"
  end.

(** [Category(s)]: lookup of a member by value; [None] where Python raises
    [ValueError]. *)
Definition Category_of_value (s : string) : option Category :=
  if String.eqb s "tools" then Some TOOLS
  else if String.eqb s "consumables" then Some CONSUMABLES
  else None.

(** Python floats are IEEE 754 binary64 numbers. *)
Definition float : Type := spec_float.
Definition prec : Z := 53.
Definition emax : Z := 1024.

(** The literal [0.0]. *)
Definition float_zero : float := S754_zero false.

(** [float(z)] for a Python int [z], rounded to nearest; the result is
    infinite where Python raises [OverflowError]. *)
Definition float_of_int (z : Z) : float := binary_normalize prec emax z 0 false.

(** [math.isfinite]: neither an infinity nor a NaN. *)
Definition finite (f : float) : bool :=
  match f with
  | S754_zero _ | S754_finite _ _ _ => true
  | S754_infinity _ | S754_nan => false
  end.

(** [class Item(BaseModel)]: four fields, no [id]. *)
Record Item : Type := mkItem {
  name : string;
  price : float;
  count : Z;
  category : Category
}.

(** Python values that the handlers build, receive and return.  A [dict] is
    an association list in insertion order. *)
#[warnings="-register-all"] Inductive pyval : Type :=
| PNone
| PStr (s : string)
| PInt (z : Z)
| PFloat (f : float)
| PEnum (c : Category)
| PModel (i : Item)
| PList (l : list pyval)
| PDict (d : list (string * pyval))
| PTuple (l : list pyval).

Definition dict : Type := list (string * pyval).

(** [d.get(k)] *)
Fixpoint dict_get (k : string) (d : dict) : option pyval :=
  match d with
  | [] => None
  | (k', v) :: d' => if String.eqb k k' then Some v else dict_get k d'
  end.

(** [d[k] = v]: an existing key keeps its position, a new key goes last. *)
Fixpoint dict_set (k : string) (v : pyval) (d : dict) : dict :=
  match d with
  | [] => [(k, v)]
  | (k', v') :: d' =>
      if String.eqb k k' then (k', v) :: d' else (k', v') :: dict_set k v d'
  end.

(** Truth value of a list or dict: empty is falsy. *)
Definition truthy {A : Type} (l : list A) : bool :=
  match l with
  | [] => false
  | _ :: _ => true
  end.

(** [None] for an omitted optional parameter, the value otherwise. *)
Definition py_opt {A : Type} (inj : A -> pyval) (o : option A) : pyval :=
  match o with
  | Some a => inj a
  | None => PNone
  end.

(** [item.model_dump()] *)
Definition model_dump (item : Item) : dict :=
  [ ("name", PStr (name item));
    ("price", PFloat (price item));
    ("count", PInt (count item));
    ("category", PEnum (category item)) ].

(** Validation of one field of [Item] against its declared type.  [price]
    takes an int as well (converted to float, refused when too large for a
    float), [category] takes a member or a member's value.  The further
    conversions of the validation library (a number given as text, a float
    without fractional part given for an int) are left out. *)
Definition validate_str (v : option pyval) : option string :=
  match v with
  | Some (PStr s) => Some s
  | _ => None
  end.

Definition validate_float (v : option pyval) : option float :=
  match v with
  | Some (PFloat f) => Some f
  | Some (PInt z) =>
      if finite (float_of_int z) then Some (float_of_int z) else None
  | _ => None
  end.

Definition validate_int (v : option pyval) : option Z :=
  match v with
  | Some (PInt z) => Some z
  | _ => None
  end.

Definition validate_Category (v : option pyval) : option Category :=
  match v with
  | Some (PEnum c) => Some c
  | Some (PStr s) => Category_of_value s
  | _ => None
  end.

(** Construction of an [Item] from the keyword arguments [d]: every declared
    field must be present and valid; keys that are not fields of the model
    (such as [id]) are ignored.  [None] where pydantic raises
    [ValidationError]. *)
Definition Item_validate (d : dict) : option Item :=
  match validate_str (dict_get "name" d),
        validate_float (dict_get "price" d),
        validate_int (dict_get "count" d),
        validate_Category (dict_get "category" d) with
  | Some n, Some p, Some c, Some cat => Some (mkItem n p c cat)
  | _, _, _, _ => None
  end.

(** ** The store client's query builder

    [supabase.table(t)] names a table; [select], [insert], [update] and
    [delete] start a query on it and [eq] adds a filter.  Nothing is sent
    before [execute]. *)

Module supabase.

Inductive operation : Type :=
| Select (columns : string)
| Insert (data : dict)
| Update (data : dict)
| Delete.

Record Query : Type := mkQuery {
  q_table : string;
  q_op : operation;
  q_filters : list (string * pyval)
}.

(** [supabase.table(t)] *)
Record TableRef : Type := table { table_name : string }.

(** [.select(columns)], [.insert(data)], [.update(data)], [.delete()] *)
Definition select (columns : string) (t : TableRef) : Query :=
  mkQuery (table_name t) (Select columns) [].

Definition insert (data : dict) (t : TableRef) : Query :=
  mkQuery (table_name t) (Insert data) [].

Definition update (data : dict) (t : TableRef) : Query :=
  mkQuery (table_name t) (Update data) [].

Definition delete (t : TableRef) : Query :=
  mkQuery (table_name t) Delete [].

(** [.eq(column, value)]: one more equality filter on the query. *)
Definition eq (column : string) (value : pyval) (q : Query) : Query :=
  mkQuery (q_table q) (q_op q) (q_filters q ++ [(column, value)]).

Definition is_update (q : Query) : bool :=
  match q_op q with
  | Update _ => true
  | _ => false
  end.

End supabase.

(** ** Effects: store calls and exceptions *)

(** [RequestValidationError]: raised by the framework before the handler
    runs, answered as a 422 client error.  [ValidationError]: raised when
    a handler builds an [Item] from a stored record.  [ValueError] and
    [TypeError]: raised when the body of a store call is written as JSON.
    [ResponseValidationError]: raised by the framework when the value that a
    handler returns does not have the declared return type. *)
Inductive exn : Type :=
| RequestValidationError
| ValidationError
| ValueError
| TypeError
| ResponseValidationError.

(** The first error of a sequence of checks. *)
Fixpoint first_error (checks : list (option exn)) : option exn :=
  match checks with
  | [] => None
  | Some e :: _ => Some e
  | None :: rest => first_error rest
  end.

(** Writing a value as JSON, as the HTTP client and the framework do it
    ([allow_nan=False]): an infinity or a NaN raises [ValueError], an enum
    member or a model raises [TypeError]; a container fails with the first
    error among its elements. *)
Fixpoint json_error (v : pyval) : option exn :=
  match v with
  | PNone | PStr _ | PInt _ => None
  | PFloat f => if finite f then None else Some ValueError
  | PEnum _ | PModel _ => Some TypeError
  | PList l | PTuple l => first_error (map json_error l)
  | PDict d => first_error (map (fun kv => json_error (snd kv)) d)
  end.

(** The error, if any, of writing the body of a store call: an insert and
    an update carry their data as a JSON body, a select and a delete carry
    none (their filters travel in the address). *)
Definition body_error (q : supabase.Query) : option exn :=
  match supabase.q_op q with
  | supabase.Insert data | supabase.Update data => json_error (PDict data)
  | supabase.Select _ | supabase.Delete => None
  end.

Section Routes.

(** The store: its state and what [.execute()] does to it.  The answer is
    [response.data], a list of records. *)
Variable Store : Type.
Variable execute : supabase.Query -> Store -> list dict * Store.

(** The store together with the log of the queries issued so far. *)
Record World : Type := mkWorld {
  db : Store;
  issued : list supabase.Query
}.

Definition M (A : Type) : Type := World -> (exn + A) * World.

Definition ret {A : Type} (a : A) : M A := fun w => (inr a, w).

Definition raise {A : Type} (e : exn) : M A := fun w => (inl e, w).

Definition bind {A B : Type} (m : M A) (k : A -> M B) : M B :=
  fun w =>
    match m w with
    | (inr a, w') => k a w'
    | (inl e, w') => (inl e, w')
    end.

Notation "x <- m ;; k" := (bind m (fun x => k))
  (at level 100, m at next level, right associativity).

(** [q.execute()]: the call raises before anything is sent when its body
    cannot be written as JSON; otherwise the store answers and the query is
    logged. *)
Definition run (q : supabase.Query) : M (list dict) :=
  fun w =>
    match body_error q with
    | Some e => (inl e, w)
    | None =>
        let (data, s) := execute q (db w) in
        (inr data, mkWorld s (issued w ++ [q]))
    end.

(** The list comprehension that builds an [Item] from each record of
    [data]. *)
Fixpoint parse_items (data : list dict) : M (list Item) :=
  match data with
  | [] => ret []
  | row :: rest =>
      match Item_validate row with
      | Some item => items <- parse_items rest;; ret (item :: items)
      | None => raise ValidationError
      end
  end.

(** *** Handlers *)

(** [GET /] *)
Definition index : M pyval :=
  response <- run (supabase.select "*" (supabase.table "items"));;
  items <- parse_items response;;
  ret (PDict [("data", PList (map PModel items))]).

(** [GET /items/] *)
Definition query_item_by_parameters
    (name : option string) (price : option float)
    (count : option Z) (category : option Category) : M pyval :=
  let query := supabase.select "*" (supabase.table "items") in
  let query := match name with
               | Some n => supabase.eq "name" (PStr n) query
               | None => query
               end in
  let query := match price with
               | Some p => supabase.eq "price" (PFloat p) query
               | None => query
               end in
  let query := match count with
               | Some c => supabase.eq "count" (PInt c) query
               | None => query
               end in
  let query := match category with
               | Some c => supabase.eq "category" (PStr (Category_value c)) query
               | None => query
               end in
  response <- run query;;
  items <- parse_items response;;
  ret (PDict [ ("query", PDict [ ("name", py_opt PStr name);
                                 ("price", py_opt PFloat price);
                                 ("count", py_opt PInt count);
                                 ("category", py_opt PEnum category) ]);
               ("selection", PList (map PModel items)) ]).

(** [POST /] *)
Definition add_item (item : Item) : M pyval :=
  let data := model_dump item in
  let data := dict_set "category" (PStr (Category_value (category item))) data in
  response <- run (supabase.insert data (supabase.table "items"));;
  ret (PDict [("added", PModel item)]).

(** [PUT /update/{item_id}] *)
Definition update
    (item_id : Z) (name : option string) (price : option float)
    (count : option Z) (category : option Category) : M pyval :=
  existing_item_response <-
    run (supabase.eq "id" (PInt item_id) (supabase.select "*" (supabase.table "items")));;
  if negb (truthy existing_item_response) then
    ret (PTuple [PDict [("message", PStr "Item not found")]; PInt 404])
  else
    let update_data : dict := [] in
    let update_data := match name with
                       | Some n => dict_set "name" (PStr n) update_data
                       | None => update_data
                       end in
    let update_data := match price with
                       | Some p => dict_set "price" (PFloat p) update_data
                       | None => update_data
                       end in
    let update_data := match count with
                       | Some c => dict_set "count" (PInt c) update_data
                       | None => update_data
                       end in
    let update_data := match category with
                       | Some c =>
                           dict_set "category" (PStr (Category_value c)) update_data
                       | None => update_data
                       end in
    if truthy update_data then
      response <-
        run (supabase.eq "id" (PInt item_id) (supabase.update update_data (supabase.table "items")));;
      if negb (truthy response) then
        ret (PTuple [PDict [ ("message", PStr "Item was not updated");
                             ("data", PList (map PDict response)) ];
                     PInt 400])
      else
        ret (PTuple [PDict [ ("message", PStr "Item updated successfully");
                             ("data", PList (map PDict response)) ];
                     PInt 200])
    else
      ret (PTuple [PDict [("message", PStr "No fields to update")]; PInt 400]).

(** [DELETE /delete/{item_id}] *)
Definition delete_item (item_id : Z) : M pyval :=
  response <- run (supabase.eq "id" (PInt item_id) (supabase.delete (supabase.table "items")));;
  let deleted := PList [] in
  let deleted := match response with
                 | first :: _ => PDict first
                 | [] => deleted
                 end in
  ret (PDict [("deleted", deleted)]).

(** *** Parameter validation declared by the route signatures

    A request reaches a handler only after each parameter has been
    validated against its annotation; otherwise the framework raises
    [RequestValidationError] and the handler body does not run.  In the
    routes below a category arrives as text and the numbers arrive
    converted; [route_query_item_by_parameters_text] further down takes the
    numbers as text too. *)

(** [Category | None]: an optional member, given by value. *)
Definition param_Category (raw : option string) : option (option Category) :=
  match raw with
  | None => Some None
  | Some s =>
      match Category_of_value s with
      | Some c => Some (Some c)
      | None => None
      end
  end.

(** [Path(ge=0)] *)
Definition check_item_id (item_id : Z) : bool := 0 <=? item_id.

(** [Query(default=None, min_length=1, max_length=8)] *)
Definition check_name (name : option string) : bool :=
  match name with
  | None => true
  | Some n =>
      (1 <=? Z.of_nat (String.length n)) && (Z.of_nat (String.length n) <=? 8)
  end.

(** [Query(default=None, gt=0.0)] *)
Definition check_price (price : option float) : bool :=
  match price with
  | None => true
  | Some p => SFltb float_zero p
  end.

(** [Query(default=None, ge=0)] *)
Definition check_count (count : option Z) : bool :=
  match count with
  | None => true
  | Some c => 0 <=? c
  end.

(** [GET /] *)
Definition route_index : M pyval := index.

(** [GET /items/?name=&price=&count=&category=] *)
Definition route_query_item_by_parameters
    (name : option string) (price : option float)
    (count : option Z) (category : option string) : M pyval :=
  match param_Category category with
  | Some category => query_item_by_parameters name price count category
  | None => raise RequestValidationError
  end.

(** [POST /] with a JSON object as body *)
Definition route_add_item (body : dict) : M pyval :=
  match Item_validate body with
  | Some item => add_item item
  | None => raise RequestValidationError
  end.

(** [PUT /update/{item_id}?name=&price=&count=&category=] *)
Definition route_update
    (item_id : Z) (name : option string) (price : option float)
    (count : option Z) (category : option string) : M pyval :=
  match param_Category category with
  | Some category =>
      if check_item_id item_id && check_name name
         && check_price price && check_count count
      then update item_id name price count category
      else raise RequestValidationError
  | None => raise RequestValidationError
  end.

(** The declared return type [dict[str, Item]]: the returned value must be
    a dict whose values are items, or dicts from which an item can be built;
    the framework raises [ResponseValidationError] otherwise. *)
Definition return_Item (v : pyval) : option pyval :=
  match v with
  | PModel item => Some (PModel item)
  | PDict d =>
      match Item_validate d with
      | Some item => Some (PModel item)
      | None => None
      end
  | _ => None
  end.

Fixpoint return_dict_of_Item (d : dict) : option dict :=
  match d with
  | [] => Some []
  | (k, v) :: rest =>
      match return_Item v, return_dict_of_Item rest with
      | Some v', Some rest' => Some ((k, v') :: rest')
      | _, _ => None
      end
  end.

Definition returns_dict_of_Item (v : pyval) : M pyval :=
  match v with
  | PDict d =>
      match return_dict_of_Item d with
      | Some d' => ret (PDict d')
      | None => raise ResponseValidationError
      end
  | _ => raise ResponseValidationError
  end.

(** [DELETE /delete/{item_id}], declared to return [dict[str, Item]].  The
    other routes with a declared return type return items in every case, so
    that the check always passes there and is not written out. *)
Definition route_delete_item (item_id : Z) : M pyval :=
  v <- delete_item item_id;; returns_dict_of_Item v.

End Routes.

Arguments mkWorld {Store} _ _.
Arguments db {Store} _.
Arguments issued {Store} _.
Arguments ret {Store A} _ _.
Arguments raise {Store A} _ _.
Arguments bind {Store A B} _ _ _.
Arguments run {Store} _ _ _.
Arguments parse_items {Store} _ _.
Arguments index {Store} _ _.
Arguments query_item_by_parameters {Store} _ _ _ _ _ _.
Arguments add_item {Store} _ _ _.
Arguments update {Store} _ _ _ _ _ _ _.
Arguments delete_item {Store} _ _ _.
Arguments route_index {Store} _ _.
Arguments route_query_item_by_parameters {Store} _ _ _ _ _ _.
Arguments route_add_item {Store} _ _ _.
Arguments route_update {Store} _ _ _ _ _ _ _.
Arguments returns_dict_of_Item {Store} _ _.
Arguments route_delete_item {Store} _ _ _.

(** ** The response to a request

    What the framework answers for an outcome.  On every route the request
    validation error is answered with 422 and any other exception with 500.
    A value returned by a route that declares no status code is made into
    JSON (a tuple becomes an array, a member its value, a model the dict of
    its fields) and sent with status 200; a value that cannot be written as
    JSON is answered with 500.  The body of an error response is not
    modelled. *)

Inductive Response : Type :=
| JSONResponse (status_code : Z) (content : pyval)
| ErrorResponse (status_code : Z).

Fixpoint jsonable (v : pyval) : pyval :=
  match v with
  | PNone | PStr _ | PInt _ | PFloat _ => v
  | PEnum c => PStr (Category_value c)
  | PModel item =>
      PDict [ ("name", PStr (name item));
              ("price", PFloat (price item));
              ("count", PInt (count item));
              ("category", PStr (Category_value (category item))) ]
  | PList l | PTuple l => PList (map jsonable l)
  | PDict d => PDict (map (fun kv => (fst kv, jsonable (snd kv))) d)
  end.

Definition error_response (e : exn) : Response :=
  match e with
  | RequestValidationError => ErrorResponse 422
  | _ => ErrorResponse 500
  end.

Definition respond (outcome : exn + pyval) : Response :=
  match outcome with
  | inl e => error_response e
  | inr v =>
      match json_error (jsonable v) with
      | None => JSONResponse 200 (jsonable v)
      | Some _ => ErrorResponse 500
      end
  end.

(** The status of a response. *)
Definition status_of (r : Response) : Z :=
  match r with
  | JSONResponse status_code _ => status_code
  | ErrorResponse status_code => status_code
  end.

(** [PUT /update/{item_id}] as a client sees it. *)
Definition http_update {Store : Type}
    (execute : supabase.Query -> Store -> list dict * Store)
    (item_id : Z) (name : option string) (price : option float)
    (count : option Z) (category : option string)
    (w : World Store) : Response * World Store :=
  let (outcome, w') := route_update execute item_id name price count category w in
  (respond outcome, w').

(** ** Parameters as text

    [price: float | None] and [count: int | None] arrive as text in the
    address, like the category, and are converted by the framework before
    the handler runs.  The conversions are parameters here: [None] where the
    text is refused. *)

Section TextParameters.

Variable Store : Type.
Variable execute : supabase.Query -> Store -> list dict * Store.
Variable float_of_text : string -> option float.
Variable int_of_text : string -> option Z.

Definition param_number {A : Type} (convert : string -> option A)
    (raw : option string) : option (option A) :=
  match raw with
  | None => Some None
  | Some text =>
      match convert text with
      | Some a => Some (Some a)
      | None => None
      end
  end.

(** [GET /items/?name=&price=&count=&category=], every parameter as the
    text of the address. *)
Definition route_query_item_by_parameters_text
    (name price count category : option string) : M Store pyval :=
  match param_number float_of_text price, param_number int_of_text count with
  | Some price, Some count =>
      route_query_item_by_parameters execute name price count category
  | _, _ => raise RequestValidationError
  end.

End TextParameters.

Arguments param_number {A} _ _.
Arguments route_query_item_by_parameters_text {Store} _ _ _ _ _ _ _ _.

(** The world after one call: the store has moved on and the query is in the
    log. *)
Definition after {Store : Type}
    (execute : supabase.Query -> Store -> list dict * Store)
    (q : supabase.Query) (w : World Store) : World Store :=
  mkWorld (snd (execute q (db w))) (issued w ++ [q]).

(** ** The contract of the store

    The handlers rely on a store with table-scoped operations that answer
    with lists of records.  [rows] is the content of the items table and
    [holds column value r] is the store's reading of the filter
    [column = value] on the record [r]. *)

Section Contract.

Variable Store : Type.
Variable execute : supabase.Query -> Store -> list dict * Store.
Variable rows : Store -> list dict.
Variable holds : string -> pyval -> dict -> bool.

(** A record passes a list of filters when it passes each of them. *)
Definition satisfies (filters : list (string * pyval)) (r : dict) : bool :=
  forallb (fun f => holds (fst f) (snd f) r) filters.

(** A select answers with the stored records that pass every filter, in
    stored order, and leaves the store as it is. *)
Definition select_contract : Prop :=
  forall filters s,
    execute (supabase.mkQuery "items" (supabase.Select "*") filters) s
    = (filter (satisfies filters) (rows s), s).

(** [r] is [data] with an integer [id] added. *)
Definition with_id (id : Z) (data r : dict) : Prop :=
  dict_get "id" r = Some (PInt id)
  /\ forall k, k <> "id" -> dict_get k r = dict_get k data.

(** An insert adds one record to the table: the data sent, together with an
    identifier chosen by the store. *)
Definition insert_contract : Prop :=
  forall data s,
    exists id r,
      with_id id data r
      /\ fst (execute (supabase.mkQuery "items" (supabase.Insert data) []) s) = [r]
      /\ forall x,
           In x (rows (snd (execute (supabase.mkQuery "items" (supabase.Insert data) []) s)))
           <-> In x (rows s) \/ x = r.

End Contract.

Arguments select_contract {Store} execute rows holds.
Arguments insert_contract {Store} execute rows.

(** ** The filtered query, in the words of its description

    One equality filter for each supplied parameter and none for an omitted
    one; a category is compared by its string value. *)

Definition filter_of {A : Type} (column : string) (inj : A -> pyval)
    (o : option A) : list (string * pyval) :=
  match o with
  | Some a => [(column, inj a)]
  | None => []
  end.

Definition supplied_filters (name : option string) (price : option float)
    (count : option Z) (category : option Category) : list (string * pyval) :=
  filter_of "name" PStr name
  ++ filter_of "price" PFloat price
  ++ filter_of "count" PInt count
  ++ filter_of "category" (fun c => PStr (Category_value c)) category.

(** A record agrees with a parameter when the parameter is omitted or the
    record's column equals it. *)
Definition agrees {A : Type} (holds : string -> pyval -> dict -> bool)
    (column : string) (inj : A -> pyval) (o : option A) (r : dict) : bool :=
  match o with
  | Some a => holds column (inj a) r
  | None => true
  end.

Definition agrees_with_all (holds : string -> pyval -> dict -> bool)
    (name : option string) (price : option float)
    (count : option Z) (category : option Category) (r : dict) : bool :=
  agrees holds "name" PStr name r
  && agrees holds "price" PFloat price r
  && agrees holds "count" PInt count r
  && agrees holds "category" (fun c => PStr (Category_value c)) category r.

(** Validation of a list of records, without effects. *)
Fixpoint validate_all (data : list dict) : option (list Item) :=
  match data with
  | [] => Some []
  | row :: rest =>
      match Item_validate row, validate_all rest with
      | Some item, Some items => Some (item :: items)
      | _, _ => None
      end
  end.

(** What a listing handler answers from the validated records: [wrap]
    builds the body, a record that is not a valid [Item] fails the whole
    request. *)
Definition answer (wrap : list Item -> pyval) (data : list dict) : exn + pyval :=
  match validate_all data with
  | Some items => inr (wrap items)
  | None => inl ValidationError
  end.

Definition index_body (items : list Item) : pyval :=
  PDict [("data", PList (map PModel items))].

Definition query_echo (name : option string) (price : option float)
    (count : option Z) (category : option Category) : pyval :=
  PDict [ ("name", py_opt PStr name);
          ("price", py_opt PFloat price);
          ("count", py_opt PInt count);
          ("category", py_opt PEnum category) ].

Definition query_body (name : option string) (price : option float)
    (count : option Z) (category : option Category) (items : list Item) : pyval :=
  PDict [ ("query", query_echo name price count category);
          ("selection", PList (map PModel items)) ].

(** The elements of a listing and the fields that an element shows. *)
Definition listed (answer : exn + pyval) : list pyval :=
  match answer with
  | inr (PDict d) =>
      match dict_get "data" d with
      | Some (PList l) => l
      | _ => []
      end
  | _ => []
  end.

Definition fields_of (v : pyval) : dict :=
  match v with
  | PModel item => model_dump item
  | PDict d => d
  | _ => []
  end.

Definition carries_id (v : pyval) : Prop :=
  exists id, dict_get "id" (fields_of v) = Some (PInt id).

(** The element [v] of a listing shows the name, price, count and category
    of [item]. *)
Definition same_fields (item : Item) (v : pyval) : Prop :=
  dict_get "name" (fields_of v) = Some (PStr (name item))
  /\ dict_get "price" (fields_of v) = Some (PFloat (price item))
  /\ dict_get "count" (fields_of v) = Some (PInt (count item))
  /\ (dict_get "category" (fields_of v) = Some (PEnum (category item))
      \/ dict_get "category" (fields_of v)
         = Some (PStr (Category_value (category item)))).

(** ** A reference store

    An in-memory items table that meets the contract: records in insertion
    order and a counter for the next identifier.  It serves to run the
    handlers on concrete inputs. *)

Module RefStore.

Record state : Type := mkState {
  rows : list dict;
  next_id : Z
}.

(** Equality of a stored value and a filter value; numbers compare across
    int and float. *)
Definition value_eqb (a b : pyval) : bool :=
  match a, b with
  | PStr x, PStr y => String.eqb x y
  | PInt x, PInt y => x =? y
  | PFloat x, PFloat y => SFeqb x y
  | PInt x, PFloat y => SFeqb (float_of_int x) y
  | PFloat x, PInt y => SFeqb x (float_of_int y)
  | _, _ => false
  end.

Definition holds (column : string) (value : pyval) (r : dict) : bool :=
  match dict_get column r with
  | Some v => value_eqb v value
  | None => false
  end.

Definition assign (data : dict) (r : dict) : dict :=
  fold_left (fun acc kv => dict_set (fst kv) (snd kv) acc) data r.

Definition execute (q : supabase.Query) (s : state) : list dict * state :=
  let keep := satisfies holds (supabase.q_filters q) in
  if negb (String.eqb (supabase.q_table q) "items") then ([], s)
  else
    match supabase.q_op q with
    | supabase.Select _ => (filter keep (rows s), s)
    | supabase.Insert data =>
        let r := ("id", PInt (next_id s)) :: data in
        ([r], mkState (rows s ++ [r]) (next_id s + 1))
    | supabase.Update data =>
        (map (assign data) (filter keep (rows s)),
         mkState (map (fun r => if keep r then assign data r else r) (rows s))
                 (next_id s))
    | supabase.Delete =>
        (filter keep (rows s),
         mkState (filter (fun r => negb (keep r)) (rows s)) (next_id s))
    end.

Definition empty : state := mkState [] 1.

Definition world (s : state) : World state := mkWorld s [].

End RefStore.

(** ** Sample data: Hammer, Pliers and Nails *)

(** 9.99, 5.99 and 1.99 as binary64 numbers. *)
Definition f9_99 : float := S754_finite false 5623870034678907 (-49).
Definition f5_99 : float := S754_finite false 6744140441987318 (-50).
Definition f1_99 : float := S754_finite false 8962163258467287 (-52).

Definition Hammer : Item := mkItem "Hammer" f9_99 20 TOOLS.
Definition Pliers : Item := mkItem "Pliers" f5_99 20 TOOLS.
Definition Nails : Item := mkItem "Nails" f1_99 100 CONSUMABLES.

(** The record that the store keeps for an item. *)
Definition stored (id : Z) (item : Item) : dict :=
  [ ("id", PInt id);
    ("name", PStr (name item));
    ("price", PFloat (price item));
    ("count", PInt (count item));
    ("category", PStr (Category_value (category item))) ].

Definition sample_store : RefStore.state :=
  RefStore.mkState [stored 0 Hammer; stored 1 Pliers; stored 2 Nails] 3.

(** A request body for [POST /]. *)
Definition body_of (n : string) (p : float) (c : Z) (cat : string) : dict :=
  [ ("name", PStr n); ("price", PFloat p); ("count", PInt c); ("category", PStr cat) ].

Definition f_minus_1 : float := S754_finite true 4503599627370496 (-52).

(** A store with one record that is not a valid item: its category is
    not a member's value. *)
Definition odd_record : dict :=
  [ ("id", PInt 3); ("name", PStr "Robot"); ("price", PFloat f9_99);
    ("count", PInt 1); ("category", PStr "toys") ].

Definition odd_store : RefStore.state :=
  RefStore.mkState
    [stored 0 Hammer; stored 1 Pliers; stored 2 Nails; odd_record] 4.

(** The constraints that the signature of [update] puts on a request:
    [item_id] at least 0, a [name] of 1 to 8 characters, a [price] above
    0.0, a [count] of at least 0 and a [category] that is the value of a
    member; an omitted parameter meets its constraint. *)
Definition update_request_ok (item_id : Z) (name : option string)
    (price : option float) (count : option Z) (category : option string) : Prop :=
  0 <= item_id
  /\ (forall n, name = Some n ->
                (1 <= String.length n)%nat /\ (String.length n <= 8)%nat)
  /\ (forall p, price = Some p -> SFltb float_zero p = true)
  /\ (forall c, count = Some c -> 0 <= c)
  /\ (forall s, category = Some s -> s = "tools" \/ s = "consumables").

(** The member that a category parameter names, if it names one. *)
Definition member_of (category : option string) : option Category :=
  match category with
  | Some s => Category_of_value s
  | None => None
  end.

(** ** Properties *)

Example query_tools_on_sample :
  fst (query_item_by_parameters RefStore.execute None None None (Some TOOLS)
         (RefStore.world sample_store))
  = inr (query_body None None None (Some TOOLS) [Hammer; Pliers]).
Proof. vm_compute. reflexivity. Qed.

Example create_then_list_on_empty :
  fst (index RefStore.execute
         (snd (add_item RefStore.execute Hammer (RefStore.world RefStore.empty))))
  = inr (index_body [Hammer]).
Proof. vm_compute. reflexivity. Qed.

Example delete_absent_on_sample :
  fst (delete_item RefStore.execute 7 (RefStore.world sample_store))
  = inr (PDict [("deleted", PList [])]).
Proof. vm_compute. reflexivity. Qed.

Example delete_present_on_sample :
  delete_item RefStore.execute 1 (RefStore.world sample_store)
  = (inr (PDict [("deleted", PDict (stored 1 Pliers))]),
     mkWorld (RefStore.mkState [stored 0 Hammer; stored 2 Nails] 3)
       [supabase.mkQuery "items" supabase.Delete [("id", PInt 1)]]).
Proof. vm_compute. reflexivity. Qed.

Example update_name_on_sample :
  fst (route_update RefStore.execute 2 (Some "Screws") None None None
         (RefStore.world sample_store))
  = inr (PTuple [PDict [ ("message", PStr "Item updated successfully");
                         ("data", PList [PDict (stored 2 (mkItem "Screws" f1_99 100 CONSUMABLES))]) ];
                 PInt 200]).
Proof. vm_compute. reflexivity. Qed.

(** *** The enumeration and the model *)

Lemma Category_of_value_value (c : Category) :
  Category_of_value (Category_value c) = Some c.
Proof. destruct c; reflexivity. Qed.

Lemma Category_of_value_other (s : string) :
  s <> "tools" -> s <> "consumables" -> Category_of_value s = None.
Proof.
  intros Ht Hc. unfold Category_of_value.
  destruct (String.eqb_spec s "tools") as [E | _]; [contradiction |].
  destruct (String.eqb_spec s "consumables") as [E | _]; [contradiction |].
  reflexivity.
Qed.

Lemma model_dump_has_no_id (item : Item) : ~ carries_id (PModel item).
Proof. intros [id H]. cbn in H. discriminate H. Qed.

Lemma Item_validate_body (n : string) (p : float) (c : Z) (cat : Category) :
  Item_validate (body_of n p c (Category_value cat)) = Some (mkItem n p c cat).
Proof.
  unfold Item_validate, body_of. cbn.
  rewrite Category_of_value_value. reflexivity.
Qed.

(** The data that [add_item] sends for an item. *)
Lemma add_item_data (item : Item) :
  dict_set "category" (PStr (Category_value (category item))) (model_dump item)
  = body_of (name item) (price item) (count item) (Category_value (category item)).
Proof. reflexivity. Qed.

Lemma Item_validate_with_id (id : Z) (data r : dict) :
  with_id id data r -> Item_validate r = Item_validate data.
Proof.
  intros [_ H]. unfold Item_validate.
  rewrite !H by discriminate. reflexivity.
Qed.

Lemma validate_all_total (l : list dict) :
  (forall x, In x l -> Item_validate x <> None) ->
  exists items,
    validate_all l = Some items
    /\ forall x i, In x l -> Item_validate x = Some i -> In i items.
Proof.
  induction l as [| r l IH]; intros Hall.
  - exists []. split; [reflexivity | intros x i []].
  - destruct IH as [items [Hv Hin]].
    { intros x Hx. apply Hall. right. exact Hx. }
    destruct (Item_validate r) as [i0 |] eqn:Er.
    + exists (i0 :: items). split.
      * cbn. rewrite Er, Hv. reflexivity.
      * intros x i [<- | Hx] Hi.
        -- left. congruence.
        -- right. eapply Hin; eassumption.
    + exfalso. apply (Hall r); [left; reflexivity | exact Er].
Qed.

Lemma validate_all_each (l : list dict) (items : list Item) :
  validate_all l = Some items -> forall x, In x l -> Item_validate x <> None.
Proof.
  revert items. induction l as [| r l IH]; intros items Hv x Hx.
  - destruct Hx.
  - cbn in Hv. destruct (Item_validate r) as [i0 |] eqn:Er; [| discriminate].
    destruct (validate_all l) as [js |] eqn:El; [| discriminate].
    destruct Hx as [<- | Hx].
    + congruence.
    + eapply IH; [reflexivity | exact Hx].
Qed.

(** [gt=0.0] refuses every float that is at most zero. *)
Lemma not_positive (p : float) :
  SFleb p float_zero = true -> SFltb float_zero p = false.
Proof.
  destruct p as [s | s | | s m e]; cbn; try reflexivity; try discriminate.
  - destruct s; [reflexivity | discriminate].
  - destruct s; [reflexivity | discriminate].
Qed.

(** *** The handlers, for any store *)

Section Handlers.

Variable Store : Type.
Variable execute : supabase.Query -> Store -> list dict * Store.

Lemma run_eq (q : supabase.Query) (w : World Store) :
  body_error q = None ->
  run execute q w = (inr (fst (execute q (db w))), after execute q w).
Proof.
  intros H. unfold run, after. rewrite H.
  destruct (execute q (db w)); reflexivity.
Qed.

Lemma run_cases (q : supabase.Query) (w : World Store) :
  run execute q w
  = match body_error q with
    | Some e => (inl e, w)
    | None => (inr (fst (execute q (db w))), after execute q w)
    end.
Proof.
  unfold run, after. destruct (body_error q); [reflexivity |].
  destruct (execute q (db w)); reflexivity.
Qed.

Lemma run_raises (q : supabase.Query) (e : exn) (w : World Store) :
  body_error q = Some e -> run execute q w = (inl e, w).
Proof. intros H. unfold run. rewrite H. reflexivity. Qed.

(** The body of an insert or update of an item's fields can be written
    exactly when the price is finite. *)
Lemma body_of_error (n : string) (p : float) (c : Z) (cat : string) :
  json_error (PDict (body_of n p c cat))
  = if finite p then None else Some ValueError.
Proof. cbn. destruct (finite p); reflexivity. Qed.

Lemma parse_items_eq (data : list dict) (w : World Store) :
  parse_items data w
  = (match validate_all data with
     | Some items => inr items
     | None => inl ValidationError
     end, w).
Proof.
  induction data as [| row rest IH]; [reflexivity |].
  cbn. destruct (Item_validate row) as [item |]; [| reflexivity].
  unfold bind. rewrite IH.
  destruct (validate_all rest); reflexivity.
Qed.

Lemma index_eq (w : World Store) :
  let q := supabase.mkQuery "items" (supabase.Select "*") [] in
  index execute w = (answer index_body (fst (execute q (db w))), after execute q w).
Proof.
  cbn. unfold index, bind. rewrite run_eq by reflexivity.
  rewrite parse_items_eq.
  unfold answer. cbn.
  destruct (validate_all _); reflexivity.
Qed.

Lemma query_item_by_parameters_eq
    (name : option string) (price : option float) (count : option Z)
    (category : option Category) (w : World Store) :
  let q := supabase.mkQuery "items" (supabase.Select "*")
             (supplied_filters name price count category) in
  query_item_by_parameters execute name price count category w
  = (answer (query_body name price count category) (fst (execute q (db w))),
     after execute q w).
Proof.
  cbn. unfold query_item_by_parameters, bind.
  destruct name, price, count, category;
    rewrite run_eq by reflexivity; rewrite parse_items_eq; unfold answer;
    cbn; destruct (validate_all _); reflexivity.
Qed.

Lemma add_item_eq (item : Item) (w : World Store) :
  finite (price item) = true ->
  add_item execute item w
  = (inr (PDict [("added", PModel item)]),
     after execute
       (supabase.mkQuery "items"
          (supabase.Insert
             (body_of (name item) (price item) (count item)
                (Category_value (category item)))) []) w).
Proof.
  intros Hfinite. unfold add_item, bind. rewrite run_eq; [reflexivity |].
  unfold body_error. cbn. rewrite Hfinite. reflexivity.
Qed.

Lemma add_item_raises (item : Item) (w : World Store) :
  finite (price item) = false ->
  add_item execute item w = (inl ValueError, w).
Proof.
  intros Hfinite. unfold add_item, bind.
  rewrite (run_raises _ ValueError); [reflexivity |].
  unfold body_error. cbn. rewrite Hfinite. reflexivity.
Qed.

Lemma satisfies_supplied (holds : string -> pyval -> dict -> bool)
    (name : option string) (price : option float) (count : option Z)
    (category : option Category) (r : dict) :
  satisfies holds (supplied_filters name price count category) r
  = agrees_with_all holds name price count category r.
Proof.
  unfold satisfies, supplied_filters, agrees_with_all.
  destruct name, price, count, category; cbn;
    rewrite ?andb_true_r; rewrite ?andb_assoc; reflexivity.
Qed.

End Handlers.

Lemma filter_all (holds : string -> pyval -> dict -> bool) (l : list dict) :
  filter (satisfies holds []) l = l.
Proof.
  induction l as [| r l IH]; [reflexivity |].
  cbn. f_equal. exact IH.
Qed.

(** *** The reference store meets the contract *)

Lemma RefStore_select :
  select_contract RefStore.execute RefStore.rows RefStore.holds.
Proof. intros filters s. reflexivity. Qed.

Lemma RefStore_insert : insert_contract RefStore.execute RefStore.rows.
Proof.
  intros data s.
  exists (RefStore.next_id s), (("id", PInt (RefStore.next_id s)) :: data).
  split; [split |]; [reflexivity | | split; [reflexivity |]].
  - intros k Hk. cbn.
    destruct (String.eqb_spec k "id") as [E | _]; [contradiction | reflexivity].
  - intros x. cbn. rewrite in_app_iff. cbn. intuition congruence.
Qed.

(** *** Route properties *)

Section Claims.

Variable Store : Type.
Variable execute : supabase.Query -> Store -> list dict * Store.

(** C1. Whatever combination of [name], [price], [count] and [category] is
    supplied, the filtered query issues exactly one query: select-all on the
    items table with one equality filter for each supplied parameter and none
    for an omitted one, the category being compared by its string value.  On
    a store that answers a select with the records passing every filter, the
    selection is built from exactly the stored records that agree with all
    supplied parameters. *)
Theorem query_item_by_parameters_conjunction
    (name : option string) (price : option float) (count : option Z)
    (category : option Category) (w : World Store) :
  let q := supabase.mkQuery "items" (supabase.Select "*")
             (supplied_filters name price count category) in
  issued (snd (query_item_by_parameters execute name price count category w))
  = issued w ++ [q]
  /\ forall rows holds,
       select_contract execute rows holds ->
       fst (query_item_by_parameters execute name price count category w)
       = answer (query_body name price count category)
           (filter (agrees_with_all holds name price count category)
              (rows (db w))).
Proof.
  cbn. rewrite query_item_by_parameters_eq. cbn. split; [reflexivity |].
  intros rows holds Hsel. rewrite Hsel. cbn.
  f_equal. apply filter_ext. intros r. apply satisfies_supplied.
Qed.

(** The handler for an absent item: when the lookup of [item_id] answers
    with no record, [update] returns a pair of the message "Item not found"
    and the number 404, whatever optional parameters were supplied, and the
    lookup is the only query it issues. *)
Theorem update_absent_item
    (item_id : Z) (name : option string) (price : option float)
    (count : option Z) (category : option Category) (w : World Store) :
  let lookup := supabase.mkQuery "items" (supabase.Select "*")
                  [("id", PInt item_id)] in
  fst (execute lookup (db w)) = [] ->
  update execute item_id name price count category w
  = (inr (PTuple [PDict [("message", PStr "Item not found")]; PInt 404]),
     after execute lookup w)
  /\ filter supabase.is_update
       (issued (snd (update execute item_id name price count category w)))
     = filter supabase.is_update (issued w).
Proof.
  cbn. intros Hnone.
  assert (E : update execute item_id name price count category w
              = (inr (PTuple [PDict [("message", PStr "Item not found")]; PInt 404]),
                 after execute
                   (supabase.mkQuery "items" (supabase.Select "*")
                      [("id", PInt item_id)]) w)).
  { unfold update, bind. rewrite run_eq by reflexivity. cbv beta iota.
    unfold supabase.eq, supabase.select, supabase.table_name, supabase.q_table,
      supabase.q_op, supabase.q_filters. cbv beta iota.
    change ([] ++ [("id", PInt item_id)]) with [("id", PInt item_id)].
    rewrite Hnone. reflexivity. }
  split; [exact E |].
  rewrite E. cbn. rewrite filter_app. cbn. apply app_nil_r.
Qed.

(** The handler without fields: when the lookup of [item_id] finds a record
    and none of [name], [price], [count] and [category] is supplied, [update]
    returns a pair of the message "No fields to update" and the number 400,
    and the lookup is the only query it issues. *)
Theorem update_without_fields (item_id : Z) (w : World Store) :
  let lookup := supabase.mkQuery "items" (supabase.Select "*")
                  [("id", PInt item_id)] in
  fst (execute lookup (db w)) <> [] ->
  update execute item_id None None None None w
  = (inr (PTuple [PDict [("message", PStr "No fields to update")]; PInt 400]),
     after execute lookup w)
  /\ filter supabase.is_update
       (issued (snd (update execute item_id None None None None w)))
     = filter supabase.is_update (issued w).
Proof.
  cbn. intros Hsome.
  assert (E : update execute item_id None None None None w
              = (inr (PTuple [PDict [("message", PStr "No fields to update")]; PInt 400]),
                 after execute
                   (supabase.mkQuery "items" (supabase.Select "*")
                      [("id", PInt item_id)]) w)).
  { unfold update, bind. rewrite run_eq by reflexivity. cbv beta iota.
    unfold supabase.eq, supabase.select, supabase.table_name, supabase.q_table,
      supabase.q_op, supabase.q_filters. cbv beta iota.
    change ([] ++ [("id", PInt item_id)]) with [("id", PInt item_id)].
    destruct (fst (execute _ (db w))) as [| first rest]; [contradiction |].
    reflexivity. }
  split; [exact E |].
  rewrite E. cbn. rewrite filter_app. cbn. apply app_nil_r.
Qed.

(** The delete handler by itself: when the delete matches no record it
    returns the dict whose [deleted] entry is the empty list; when records
    are deleted its [deleted] entry is the first of them. *)
Theorem delete_item_result (item_id : Z) (w : World Store) :
  let q := supabase.mkQuery "items" supabase.Delete [("id", PInt item_id)] in
  (fst (execute q (db w)) = [] ->
   delete_item execute item_id w
   = (inr (PDict [("deleted", PList [])]), after execute q w))
  /\ (forall first rest,
        fst (execute q (db w)) = first :: rest ->
        delete_item execute item_id w
        = (inr (PDict [("deleted", PDict first)]), after execute q w)).
Proof.
  cbn.
  assert (E : delete_item execute item_id w
              = (inr (PDict [("deleted",
                              match fst (execute
                                           (supabase.mkQuery "items" supabase.Delete
                                              [("id", PInt item_id)]) (db w)) with
                              | first :: _ => PDict first
                              | [] => PList []
                              end)]),
                 after execute
                   (supabase.mkQuery "items" supabase.Delete
                      [("id", PInt item_id)]) w)).
  { unfold delete_item, bind. rewrite run_eq by reflexivity. reflexivity. }
  split.
  - intros H. rewrite E, H. reflexivity.
  - intros first rest H. rewrite E, H. reflexivity.
Qed.

(** C6, as amended. For an item whose price is a finite number, the create
    handler sends one insert whose data are the item's fields with the
    category as its string value, and returns the item it was given under
    the key [added], whatever the store answers; the returned item shows no
    [id]. *)
Theorem add_item_returns_input (item : Item) (w : World Store) :
  let data := [ ("name", PStr (name item));
                ("price", PFloat (price item));
                ("count", PInt (count item));
                ("category", PStr (Category_value (category item))) ] in
  let q := supabase.mkQuery "items" (supabase.Insert data) [] in
  finite (price item) = true ->
  add_item execute item w
  = (inr (PDict [("added", PModel item)]), after execute q w)
  /\ ~ carries_id (PModel item).
Proof.
  cbn. intros Hfinite. split.
  - apply add_item_eq. exact Hfinite.
  - apply model_dump_has_no_id.
Qed.

(** C7. Without parameters the filtered query issues the same query as the
    listing, select-all on the items table with no filter, and leaves the
    same store; either both fail on a stored record that is not a valid
    item, or both return the same items, the filtered query adding the echo
    of its parameters, all null. *)
Theorem query_without_parameters_is_index (w : World Store) :
  snd (query_item_by_parameters execute None None None None w)
  = snd (index execute w)
  /\ issued (snd (index execute w))
     = issued w ++ [supabase.mkQuery "items" (supabase.Select "*") []]
  /\ ((exists items,
         fst (index execute w)
         = inr (PDict [("data", PList (map PModel items))])
         /\ fst (query_item_by_parameters execute None None None None w)
            = inr (PDict [ ("query", PDict [ ("name", PNone);
                                             ("price", PNone);
                                             ("count", PNone);
                                             ("category", PNone) ]);
                           ("selection", PList (map PModel items)) ]))
      \/ (fst (index execute w) = inl ValidationError
          /\ fst (query_item_by_parameters execute None None None None w)
             = inl ValidationError)).
Proof.
  rewrite query_item_by_parameters_eq, index_eq. cbn.
  split; [reflexivity | split; [reflexivity |]].
  unfold answer.
  destruct (validate_all _) as [items |].
  - left. exists items. split; reflexivity.
  - right. split; reflexivity.
Qed.

(** C2, as amended. On a store that keeps what is inserted and answers a
    select-all with its records, if the listing succeeds before an item with
    a finite price is created, then the listing after the creation succeeds
    as well and contains an item with the name, price, count and category of
    the created one.  The record of the store has an identifier, the listed items have
    none: an [Item] has four fields. *)
Theorem create_then_list
    (rows : Store -> list dict) (holds : string -> pyval -> dict -> bool)
    (item : Item) (w : World Store) (v : pyval) :
  select_contract execute rows holds ->
  insert_contract execute rows ->
  finite (price item) = true ->
  fst (index execute w) = inr v ->
  exists items,
    fst (index execute (snd (add_item execute item w))) = inr (index_body items)
    /\ In item items
    /\ forall it, In it items -> ~ carries_id (PModel it).
Proof.
  intros Hsel Hins Hfinite Hbefore.
  rewrite index_eq in Hbefore. cbn in Hbefore. rewrite Hsel in Hbefore.
  cbn in Hbefore.
  rewrite add_item_eq by exact Hfinite. cbn [snd]. rewrite index_eq. cbn. rewrite Hsel. cbn.
  destruct (Hins (body_of (name item) (price item) (count item)
                    (Category_value (category item))) (db w))
    as [id [r [Hid [_ Hrows]]]].
  set (s' := snd (execute _ (db w))) in *.
  assert (Hr : Item_validate r = Some item).
  { rewrite (Item_validate_with_id id _ r Hid).
    rewrite Item_validate_body. destruct item; reflexivity. }
  assert (Hold : forall x, In x (rows (db w)) -> Item_validate x <> None).
  { unfold answer in Hbefore. rewrite filter_all in Hbefore.
    destruct (validate_all (rows (db w))) as [items0 |] eqn:E; [| discriminate].
    eapply validate_all_each. exact E. }
  destruct (validate_all_total (rows s')) as [items [Hv Hin]].
  { intros x Hx. apply Hrows in Hx. destruct Hx as [Hx | ->].
    - apply Hold. exact Hx.
    - rewrite Hr. discriminate. }
  exists items. split; [| split].
  - unfold answer. rewrite filter_all, Hv. reflexivity.
  - apply (Hin r item); [| exact Hr]. apply Hrows. right. reflexivity.
  - intros it _. apply model_dump_has_no_id.
Qed.

(** C8. A category that is neither "tools" nor "consumables" is refused by
    the validation of the create, filtered query and update routes: each
    raises the request validation error and leaves the store and the log of
    issued queries untouched. *)
Theorem invalid_category_rejected (s : string) :
  s <> "tools" -> s <> "consumables" ->
  (forall body w,
     dict_get "category" body = Some (PStr s) ->
     route_add_item execute body w = (inl RequestValidationError, w))
  /\ (forall name price count w,
        route_query_item_by_parameters execute name price count (Some s) w
        = (inl RequestValidationError, w))
  /\ (forall item_id name price count w,
        route_update execute item_id name price count (Some s) w
        = (inl RequestValidationError, w)).
Proof.
  intros Ht Hc.
  pose proof (Category_of_value_other s Ht Hc) as Hnone.
  split; [| split].
  - intros body w Hbody. unfold route_add_item, Item_validate.
    rewrite Hbody. cbn. rewrite Hnone.
    destruct (validate_str (dict_get "name" body)),
      (validate_float (dict_get "price" body)),
      (validate_int (dict_get "count" body)); reflexivity.
  - intros name price count w.
    unfold route_query_item_by_parameters, param_Category.
    rewrite Hnone. reflexivity.
  - intros item_id name price count w.
    unfold route_update, param_Category. rewrite Hnone. reflexivity.
Qed.

(** C9. The update route refuses, with the request validation error and
    before any query is issued, a negative [item_id], a [name] that is empty
    or longer than 8 characters, a [price] that is at most zero, and a
    negative [count]. *)
Theorem update_parameters_rejected
    (item_id : Z) (name : option string) (price : option float)
    (count : option Z) (category : option string) (w : World Store) :
  (item_id < 0
   \/ (exists n, name = Some n
                 /\ (String.length n = 0%nat \/ (8 < String.length n)%nat))
   \/ (exists p, price = Some p /\ SFleb p float_zero = true)
   \/ (exists c, count = Some c /\ c < 0)) ->
  route_update execute item_id name price count category w
  = (inl RequestValidationError, w).
Proof.
  intros H. unfold route_update.
  destruct (param_Category category) as [cat |]; [| reflexivity].
  assert (E : check_item_id item_id && check_name name
              && check_price price && check_count count = false).
  { destruct H as [H | [[n [-> H]] | [[p [-> H]] | [c [-> H]]]]].
    - unfold check_item_id. destruct (Z.leb_spec 0 item_id); [lia |].
      reflexivity.
    - assert (En : check_name (Some n) = false).
      { unfold check_name. destruct H as [H | H].
        + rewrite H. reflexivity.
        + apply andb_false_iff. right. apply Z.leb_gt. lia. }
      rewrite En. rewrite andb_false_r. reflexivity.
    - assert (Ep : check_price (Some p) = false).
      { apply not_positive. exact H. }
      rewrite Ep. rewrite andb_false_r. reflexivity.
    - assert (Ec : check_count (Some c) = false).
      { unfold check_count. apply Z.leb_gt. exact H. }
      rewrite Ec. apply andb_false_r. }
  rewrite E. reflexivity.
Qed.

(** C10. The create route checks the types of the fields and nothing
    else: whatever the name, the finite price and the count are, an empty
    name, a negative price and a negative count included, a body with a
    string, a float, an int and a category value is accepted and the insert
    is issued; the update route refuses these same values. *)
Theorem create_has_no_value_constraints :
  (forall n p c cat w,
     finite p = true ->
     route_add_item execute (body_of n p c (Category_value cat)) w
     = (inr (PDict [("added", PModel (mkItem n p c cat))]),
        after execute
          (supabase.mkQuery "items"
             (supabase.Insert (body_of n p c (Category_value cat))) []) w))
  /\ (exists n p c,
        n = "" /\ SFleb p float_zero = true /\ c < 0
        /\ forall cat w,
             fst (route_add_item execute (body_of n p c (Category_value cat)) w)
             = inr (PDict [("added", PModel (mkItem n p c cat))])
             /\ issued (snd (route_add_item execute
                               (body_of n p c (Category_value cat)) w))
                = issued w
                  ++ [supabase.mkQuery "items"
                        (supabase.Insert (body_of n p c (Category_value cat))) []]
             /\ route_update execute 0 (Some n) (Some p) (Some c)
                  (Some (Category_value cat)) w
                = (inl RequestValidationError, w)).
Proof.
  assert (A : forall n p c cat w,
     finite p = true ->
     route_add_item execute (body_of n p c (Category_value cat)) w
     = (inr (PDict [("added", PModel (mkItem n p c cat))]),
        after execute
          (supabase.mkQuery "items"
             (supabase.Insert (body_of n p c (Category_value cat))) []) w)).
  { intros n p c cat w Hfinite. unfold route_add_item.
    rewrite Item_validate_body.
    apply (add_item_eq _ execute (mkItem n p c cat) w Hfinite). }
  split; [exact A |].
  exists "", f_minus_1, (-5).
  split; [reflexivity | split; [reflexivity | split; [lia |]]].
  intros cat w. rewrite A by reflexivity. cbn.
  split; [reflexivity | split; [reflexivity |]].
  unfold route_update, param_Category.
  rewrite Category_of_value_value. reflexivity.
Qed.

End Claims.

(** *** Concrete runs on the reference store *)

(** On the sample store, filtering by [category=tools] selects the records
    of Hammer and Pliers and nothing else. *)
Lemma query_item_by_parameters_conjunction_witness :
  select_contract RefStore.execute RefStore.rows RefStore.holds
  /\ fst (query_item_by_parameters RefStore.execute None None None (Some TOOLS)
            (RefStore.world sample_store))
     = answer (query_body None None None (Some TOOLS))
         [stored 0 Hammer; stored 1 Pliers].
Proof.
  split; [exact RefStore_select |].
  rewrite (proj2 (query_item_by_parameters_conjunction _ RefStore.execute
                    None None None (Some TOOLS) (RefStore.world sample_store))
             RefStore.rows RefStore.holds RefStore_select).
  reflexivity.
Defined.

(** Creating Hammer in the empty store and listing. *)
Lemma create_then_list_witness :
  exists items,
    fst (index RefStore.execute
           (snd (add_item RefStore.execute Hammer (RefStore.world RefStore.empty))))
    = inr (index_body items)
    /\ In Hammer items
    /\ forall it, In it items -> ~ carries_id (PModel it).
Proof.
  apply (create_then_list _ RefStore.execute RefStore.rows RefStore.holds
           Hammer (RefStore.world RefStore.empty) (index_body [])).
  - exact RefStore_select.
  - exact RefStore_insert.
  - reflexivity.
  - reflexivity.
Defined.

(** C2, as stated, fails: after Hammer is created in the empty store the
    listing has one element, which shows the four fields of Hammer, and no
    element of the listing carries an identifier. *)
Lemma create_then_list_shows_no_id :
  RefStore.rows
    (db (snd (add_item RefStore.execute Hammer (RefStore.world RefStore.empty))))
  = [stored 1 Hammer]
  /\ listed (fst (index RefStore.execute
                    (snd (add_item RefStore.execute Hammer
                            (RefStore.world RefStore.empty)))))
     = [PModel Hammer]
  /\ same_fields Hammer (PModel Hammer)
  /\ ~ (exists v,
          In v (listed (fst (index RefStore.execute
                               (snd (add_item RefStore.execute Hammer
                                       (RefStore.world RefStore.empty))))))
          /\ same_fields Hammer v
          /\ carries_id v).
Proof.
  split; [reflexivity | split; [reflexivity | split]].
  - unfold same_fields.
    split; [reflexivity | split; [reflexivity | split; [reflexivity |]]].
    left. reflexivity.
  - intros [v [Hin [_ Hid]]].
    change (In v [PModel Hammer]) in Hin.
    destruct Hin as [<- | []].
    exact (model_dump_has_no_id Hammer Hid).
Qed.

(** The category "toys" on the three routes. *)
Lemma invalid_category_rejected_witness :
  let w := RefStore.world sample_store in
  route_add_item RefStore.execute (body_of "Robot" f9_99 1 "toys") w
  = (inl RequestValidationError, w)
  /\ route_query_item_by_parameters RefStore.execute None None None (Some "toys") w
     = (inl RequestValidationError, w)
  /\ route_update RefStore.execute 1 None None None (Some "toys") w
     = (inl RequestValidationError, w).
Proof.
  cbv zeta.
  destruct (invalid_category_rejected _ RefStore.execute "toys")
    as [Hadd [Hquery Hupdate]].
  - discriminate.
  - discriminate.
  - split; [| split].
    + apply Hadd. reflexivity.
    + apply Hquery.
    + apply Hupdate.
Defined.

(** One request for each constraint of the update route. *)
Lemma update_parameters_rejected_witness :
  let w := RefStore.world sample_store in
  route_update RefStore.execute (-1) None None None None w
  = (inl RequestValidationError, w)
  /\ route_update RefStore.execute 1 (Some "") None None None w
     = (inl RequestValidationError, w)
  /\ route_update RefStore.execute 1 (Some "Sledgehammer") None None None w
     = (inl RequestValidationError, w)
  /\ route_update RefStore.execute 1 None (Some float_zero) None None w
     = (inl RequestValidationError, w)
  /\ route_update RefStore.execute 1 None None (Some (-1)) None w
     = (inl RequestValidationError, w).
Proof.
  cbv zeta. split; [| split; [| split; [| split]]].
  - apply (update_parameters_rejected _ RefStore.execute). left. lia.
  - apply (update_parameters_rejected _ RefStore.execute).
    right. left. exists "". split; [reflexivity |]. left. reflexivity.
  - apply (update_parameters_rejected _ RefStore.execute).
    right. left. exists "Sledgehammer". split; [reflexivity |].
    right. simpl. lia.
  - apply (update_parameters_rejected _ RefStore.execute).
    right. right. left. exists float_zero. split; reflexivity.
  - apply (update_parameters_rejected _ RefStore.execute).
    right. right. right. exists (-1). split; [reflexivity | lia].
Defined.

(** ** Further properties of the model and the handlers *)

Lemma validate_all_map (l : list dict) (items : list Item) :
  validate_all l = Some items <-> map Item_validate l = map Some items.
Proof.
  revert items. induction l as [| r l IH]; intros items.
  - cbn. split.
    + intros H. injection H as <-. reflexivity.
    + destruct items; [reflexivity | discriminate].
  - cbn. destruct (Item_validate r) as [i |].
    + destruct (validate_all l) as [js |].
      * split.
        -- intros H. injection H as <-. cbn. f_equal.
           apply IH. reflexivity.
        -- destruct items as [| i' items']; [discriminate |].
           cbn. intros H. injection H as <- H.
           apply IH in H. injection H as <-. reflexivity.
      * split; [discriminate |].
        destruct items as [| i' items']; [discriminate |].
        cbn. intros H. injection H as _ H. apply IH in H. discriminate H.
    + split; [discriminate |].
      destruct items; discriminate.
Qed.

Lemma validate_all_none (l : list dict) :
  validate_all l = None -> exists r, In r l /\ Item_validate r = None.
Proof.
  induction l as [| r l IH]; [discriminate |].
  cbn. destruct (Item_validate r) as [i |] eqn:Er.
  - destruct (validate_all l) as [js |]; [discriminate |].
    intros _. destruct (IH eq_refl) as [x [Hx Ex]].
    exists x. split; [right; exact Hx | exact Ex].
  - intros _. exists r. split; [left; reflexivity | exact Er].
Qed.

Lemma validate_all_filter (f : dict -> bool) (l : list dict) (items : list Item) :
  validate_all l = Some items ->
  exists sel,
    validate_all (filter f l) = Some sel
    /\ incl sel items
    /\ (length sel <= length items)%nat.
Proof.
  revert items. induction l as [| r l IH]; intros items.
  - cbn. intros H. injection H as <-. exists []. cbn.
    split; [reflexivity | split; [apply incl_refl | lia]].
  - cbn. destruct (Item_validate r) as [i |] eqn:Er; [| discriminate].
    destruct (validate_all l) as [js |]; [| discriminate].
    intros H. injection H as <-.
    destruct (IH js eq_refl) as [sel [Hv [Hincl Hlen]]].
    destruct (f r).
    + exists (i :: sel). cbn. rewrite Er, Hv.
      split; [reflexivity | split].
      * intros x [<- | Hx]; [left; reflexivity | right; apply Hincl; exact Hx].
      * lia.
    + exists sel. split; [exact Hv | split].
      * apply incl_tl. exact Hincl.
      * cbn. lia.
Qed.

Lemma some_supplied (name : option string) (price : option float)
    (count : option Z) (category : option Category) :
  name <> None \/ price <> None \/ count <> None \/ category <> None ->
  supplied_filters name price count category <> [].
Proof.
  unfold supplied_filters.
  destruct name, price, count, category; cbn; try discriminate.
  intros [H | [H | [H | H]]]; contradiction.
Qed.

Section Extras.

Variable Store : Type.
Variable execute : supabase.Query -> Store -> list dict * Store.

(** The whole of [update] in one equation: the lookup, then the update of
    the supplied fields if there are any, which raises instead of being sent
    when the fields cannot be written as JSON. *)
Lemma update_eq
    (item_id : Z) (name : option string) (price : option float)
    (count : option Z) (category : option Category) (w : World Store) :
  let lookup := supabase.mkQuery "items" (supabase.Select "*")
                  [("id", PInt item_id)] in
  let data := supplied_filters name price count category in
  let change := supabase.mkQuery "items" (supabase.Update data)
                  [("id", PInt item_id)] in
  let w1 := after execute lookup w in
  let response := fst (execute change (db w1)) in
  update execute item_id name price count category w
  = if truthy (fst (execute lookup (db w))) then
      if truthy data then
        match json_error (PDict data) with
        | Some e => (inl e, w1)
        | None =>
            (inr (PTuple
                    [PDict [ ("message",
                              PStr (if truthy response
                                    then "Item updated successfully"
                                    else "Item was not updated"));
                             ("data", PList (map PDict response)) ];
                     PInt (if truthy response then 200 else 400)]),
             after execute change w1)
        end
      else
        (inr (PTuple [PDict [("message", PStr "No fields to update")]; PInt 400]),
         w1)
    else
      (inr (PTuple [PDict [("message", PStr "Item not found")]; PInt 404]), w1).
Proof.
  cbv zeta. unfold update, bind. rewrite run_eq by reflexivity. cbv beta iota.
  unfold supabase.eq, supabase.select, supabase.update, supabase.table_name,
    supabase.q_table, supabase.q_op, supabase.q_filters. cbv beta iota.
  change ([] ++ [("id", PInt item_id)]) with [("id", PInt item_id)].
  destruct (fst (execute _ (db w))) as [| first rest]; [reflexivity |].
  cbv beta iota delta [truthy negb].
  destruct name, price, count, category;
    cbn [dict_set supplied_filters filter_of app String.eqb Ascii.eqb Bool.eqb];
    try reflexivity;
    rewrite run_cases; unfold body_error;
    cbn [supabase.q_op json_error map snd first_error];
    try match goal with
        | |- context [finite ?f] => destruct (finite f)
        end;
    cbn [first_error]; try reflexivity;
    match goal with
    | |- context [fst (execute ?q ?s)] =>
        destruct (fst (execute q s)); reflexivity
    end.
Qed.

Lemma map_PModel_inj (a b : list Item) :
  map PModel a = map PModel b -> a = b.
Proof.
  revert b. induction a as [| x a IH]; intros [| y b] H;
    try discriminate; [reflexivity |].
  cbn in H. injection H as -> H. f_equal. apply IH. exact H.
Qed.

Lemma checks_ok (item_id : Z) (name : option string) (price : option float)
    (count : option Z) (category : option string) (cat : option Category) :
  param_Category category = Some cat ->
  check_item_id item_id && check_name name
  && check_price price && check_count count = true ->
  update_request_ok item_id name price count category.
Proof.
  intros Hcat H.
  apply andb_prop in H. destruct H as [H Hcount].
  apply andb_prop in H. destruct H as [H Hprice].
  apply andb_prop in H. destruct H as [Hid Hname].
  split; [| split; [| split; [| split]]].
  - apply Z.leb_le. exact Hid.
  - intros n ->. unfold check_name in Hname.
    apply andb_prop in Hname. destruct Hname as [H1 H2].
    apply Z.leb_le in H1. apply Z.leb_le in H2. lia.
  - intros p ->. exact Hprice.
  - intros c ->. apply Z.leb_le. exact Hcount.
  - intros s ->. unfold param_Category in Hcat.
    unfold Category_of_value in Hcat.
    destruct (String.eqb_spec s "tools") as [E | _]; [left; exact E |].
    destruct (String.eqb_spec s "consumables") as [E | _]; [right; exact E |].
    discriminate Hcat.
Qed.

Lemma ok_checks (item_id : Z) (name : option string) (price : option float)
    (count : option Z) (category : option string) :
  update_request_ok item_id name price count category ->
  param_Category category = Some (member_of category)
  /\ check_item_id item_id && check_name name
     && check_price price && check_count count = true.
Proof.
  intros [Hid [Hname [Hprice [Hcount Hcat]]]]. split.
  - destruct category as [s |]; [| reflexivity].
    destruct (Hcat s eq_refl) as [-> | ->]; reflexivity.
  - repeat (apply andb_true_intro; split).
    + apply Z.leb_le. exact Hid.
    + destruct name as [n |]; [| reflexivity].
      destruct (Hname n eq_refl) as [H1 H2]. unfold check_name.
      apply andb_true_intro. split; apply Z.leb_le; lia.
    + destruct price as [p |]; [| reflexivity]. apply Hprice. reflexivity.
    + destruct count as [c |]; [| reflexivity].
      apply Z.leb_le. apply Hcount. reflexivity.
Qed.

(** X1. The lookup of a category by value finds a member exactly for that
    member's value: the two values name different members, and any other
    text, such as a member's symbolic name, names none. *)
Theorem Category_lookup_by_value (s : string) (c : Category) :
  Category_of_value s = Some c <-> s = Category_value c.
Proof.
  split.
  - unfold Category_of_value.
    destruct (String.eqb_spec s "tools") as [E | _].
    + intros H. injection H as <-. exact E.
    + destruct (String.eqb_spec s "consumables") as [E | _]; [| discriminate].
      intros H. injection H as <-. exact E.
  - intros ->. apply Category_of_value_value.
Qed.

(** X2. Dumping an item and building an item from the dump gives the item
    back.  The same holds for the data that the create handler sends (the
    category as its string value) once the store has added an identifier to
    it: the identifier is ignored. *)
Theorem Item_round_trip (item : Item) :
  Item_validate (model_dump item) = Some item
  /\ forall id r,
       with_id id
         (dict_set "category" (PStr (Category_value (category item)))
            (model_dump item)) r ->
       Item_validate r = Some item.
Proof.
  split.
  - destruct item; reflexivity.
  - intros id r Hid.
    rewrite (Item_validate_with_id id _ r Hid).
    rewrite add_item_data, Item_validate_body. destruct item; reflexivity.
Qed.

(** X3. Every field of an item is required on creation: a body that lacks
    [name], [price], [count] or [category] is refused with the request
    validation error and nothing is sent to the store. *)
Theorem add_item_requires_all_fields (body : dict) (w : World Store) :
  dict_get "name" body = None
  \/ dict_get "price" body = None
  \/ dict_get "count" body = None
  \/ dict_get "category" body = None ->
  route_add_item execute body w = (inl RequestValidationError, w).
Proof.
  intros H. unfold route_add_item, Item_validate.
  destruct H as [H | [H | [H | H]]]; rewrite H; cbn.
  - reflexivity.
  - destruct (validate_str (dict_get "name" body)); reflexivity.
  - destruct (validate_str (dict_get "name" body)),
      (validate_float (dict_get "price" body)); reflexivity.
  - destruct (validate_str (dict_get "name" body)),
      (validate_float (dict_get "price" body)),
      (validate_int (dict_get "count" body)); reflexivity.
Qed.

(** X4. The listing is all or nothing.  It sends its one query in any
    case; if every record of the answer is a valid item, it returns their
    items, one for each record and in the order of the answer; if some
    record is not, the whole listing fails with the validation error. *)
Theorem index_all_or_nothing (w : World Store) :
  let q := supabase.mkQuery "items" (supabase.Select "*") [] in
  let data := fst (execute q (db w)) in
  snd (index execute w) = after execute q w
  /\ ((exists items,
         map Item_validate data = map Some items
         /\ fst (index execute w) = inr (index_body items))
      \/ ((exists r, In r data /\ Item_validate r = None)
          /\ fst (index execute w) = inl ValidationError)).
Proof.
  cbv zeta. rewrite index_eq. cbv zeta. cbn [fst snd].
  split; [reflexivity |].
  unfold answer.
  destruct (validate_all (fst (execute _ (db w)))) as [items |] eqn:E.
  - left. exists items. split; [| reflexivity].
    apply validate_all_map. exact E.
  - right. split; [| reflexivity]. apply validate_all_none. exact E.
Qed.

Lemma supplied_json_ok (name : option string) (price : option float)
    (count : option Z) (category : option Category) :
  (forall p, price = Some p -> finite p = true) ->
  json_error (PDict (supplied_filters name price count category)) = None.
Proof.
  intros H. destruct price as [p |].
  - pose proof (H p eq_refl) as Hp.
    destruct name, count, category; cbn; rewrite Hp; reflexivity.
  - destruct name, count, category; reflexivity.
Qed.

Lemma supplied_json_error (name : option string) (p : float)
    (count : option Z) (category : option Category) :
  finite p = false ->
  json_error (PDict (supplied_filters name (Some p) count category))
  = Some ValueError.
Proof.
  intros Hp. destruct name, count, category; cbn; rewrite Hp; reflexivity.
Qed.

(** X5. When the item exists, at least one of [name], [price], [count]
    and [category] is supplied and a supplied price is finite, the partial
    update sends, after the lookup, one update of the record with that [id]
    whose data are exactly the supplied fields, the category as its string
    value.  It returns the message "Item updated successfully" with 200 and
    the records that the store answers with, or the message "Item was not
    updated" with 400 when the store answers with none. *)
Theorem update_sends_supplied_fields
    (item_id : Z) (name : option string) (price : option float)
    (count : option Z) (category : option Category) (w : World Store) :
  let lookup := supabase.mkQuery "items" (supabase.Select "*")
                  [("id", PInt item_id)] in
  let change := supabase.mkQuery "items"
                  (supabase.Update (supplied_filters name price count category))
                  [("id", PInt item_id)] in
  let response := fst (execute change (db (after execute lookup w))) in
  fst (execute lookup (db w)) <> [] ->
  name <> None \/ price <> None \/ count <> None \/ category <> None ->
  (forall p, price = Some p -> finite p = true) ->
  update execute item_id name price count category w
  = (inr (PTuple
            [PDict [ ("message",
                      PStr (if truthy response
                            then "Item updated successfully"
                            else "Item was not updated"));
                     ("data", PList (map PDict response)) ];
             PInt (if truthy response then 200 else 400)]),
     after execute change (after execute lookup w)).
Proof.
  cbv zeta. intros Hfound Hsome Hfinite.
  rewrite update_eq. cbv zeta.
  destruct (fst (execute _ (db w))) as [| first rest]; [contradiction |].
  rewrite (supplied_json_ok name price count category Hfinite).
  pose proof (some_supplied name price count category Hsome) as Hdata.
  destruct (supplied_filters name price count category) as [| f fs];
    [contradiction |].
  reflexivity.
Qed.

(** X6. Whatever its arguments, the partial update sends the lookup first
    and after it at most one more query, the update of the record with that
    [id]: never an insert or a delete.  When it returns, it returns a pair of
    a body with a message and a status that is 200, 400 or 404. *)
Theorem update_queries_and_status
    (item_id : Z) (name : option string) (price : option float)
    (count : option Z) (category : option Category) (w : World Store) :
  let lookup := supabase.mkQuery "items" (supabase.Select "*")
                  [("id", PInt item_id)] in
  let change := supabase.mkQuery "items"
                  (supabase.Update (supplied_filters name price count category))
                  [("id", PInt item_id)] in
  (exists more,
     issued (snd (update execute item_id name price count category w))
     = issued w ++ lookup :: more
     /\ (more = [] \/ more = [change]))
  /\ (forall v,
        fst (update execute item_id name price count category w) = inr v ->
        exists body status,
          v = PTuple [PDict body; PInt status]
          /\ (status = 200 \/ status = 400 \/ status = 404)
          /\ exists m, dict_get "message" body = Some (PStr m)).
Proof.
  cbv zeta. rewrite update_eq. cbv zeta.
  destruct (truthy (fst (execute _ (db w)))).
  - destruct (truthy (supplied_filters name price count category)).
    + destruct (json_error (PDict (supplied_filters name price count category))).
      * split.
        -- exists []. cbn [snd issued after]. split; [reflexivity | left; reflexivity].
        -- intros v H. discriminate H.
      * split.
        -- exists [supabase.mkQuery "items"
                     (supabase.Update
                        (supplied_filters name price count category))
                     [("id", PInt item_id)]].
           cbn [snd issued after].
           split; [rewrite <- app_assoc; reflexivity | right; reflexivity].
        -- destruct (truthy (fst (execute _ (db (after execute _ w)))));
             intros v H; cbn [fst] in H; injection H as <-.
           ++ eexists _, 200. split; [reflexivity |].
              split; [left; reflexivity | eexists; reflexivity].
           ++ eexists _, 400. split; [reflexivity |].
              split; [right; left; reflexivity | eexists; reflexivity].
    + split.
      * exists []. cbn [snd issued after]. split; [reflexivity | left; reflexivity].
      * intros v H. cbn [fst] in H. injection H as <-.
        eexists _, 400. split; [reflexivity |].
        split; [right; left; reflexivity | eexists; reflexivity].
  - split.
    + exists []. cbn [snd issued after]. split; [reflexivity | left; reflexivity].
    + intros v H. cbn [fst] in H. injection H as <-.
      eexists _, 404. split; [reflexivity |].
      split; [right; right; reflexivity | eexists; reflexivity].
Qed.

(** X11. When the item exists and the supplied price is an infinity or a
    NaN, the partial update raises [ValueError] after the lookup: the update
    is not sent and nothing is returned. *)
Theorem update_non_finite_price_raises
    (item_id : Z) (name : option string) (p : float)
    (count : option Z) (category : option Category) (w : World Store) :
  let lookup := supabase.mkQuery "items" (supabase.Select "*")
                  [("id", PInt item_id)] in
  fst (execute lookup (db w)) <> [] ->
  finite p = false ->
  update execute item_id name (Some p) count category w
  = (inl ValueError, after execute lookup w).
Proof.
  cbv zeta. intros Hfound Hp.
  rewrite update_eq. cbv zeta.
  destruct (fst (execute _ (db w))) as [| first rest]; [contradiction |].
  rewrite (supplied_json_error name p count category Hp).
  destruct name, count, category; reflexivity.
Qed.

(** X7. The update route lets a request through to the handler exactly
    when it meets the constraints of the signature, and then does what the
    handler does with the category member that the parameter names; any
    other request is refused with the request validation error before a
    query is issued.  The bounds are inclusive for [item_id] (0), [count]
    (0) and the length of [name] (1 and 8), and strict for [price]. *)
Theorem route_update_accepts_exactly
    (item_id : Z) (name : option string) (price : option float)
    (count : option Z) (category : option string) (w : World Store) :
  (update_request_ok item_id name price count category ->
   route_update execute item_id name price count category w
   = update execute item_id name price count (member_of category) w)
  /\ (~ update_request_ok item_id name price count category ->
      route_update execute item_id name price count category w
      = (inl RequestValidationError, w)).
Proof.
  split.
  - intros Hok. destruct (ok_checks _ _ _ _ _ Hok) as [Hcat Hchecks].
    unfold route_update. rewrite Hcat, Hchecks. reflexivity.
  - intros Hbad. unfold route_update.
    destruct (param_Category category) as [cat |] eqn:Hcat; [| reflexivity].
    destruct (check_item_id item_id && check_name name
              && check_price price && check_count count) eqn:Hchecks;
      [| reflexivity].
    exfalso. apply Hbad. eapply checks_ok; eassumption.
Qed.

(** X8. On a store that answers a select with the records passing every
    filter, the filtered query succeeds exactly when every stored record
    that agrees with all supplied parameters is a valid item: a record that
    is not selected is not validated. *)
Theorem query_validates_selected_only
    (rows : Store -> list dict) (holds : string -> pyval -> dict -> bool)
    (name : option string) (price : option float) (count : option Z)
    (category : option Category) (w : World Store) :
  select_contract execute rows holds ->
  ((exists items,
      fst (query_item_by_parameters execute name price count category w)
      = inr (query_body name price count category items))
   <-> (forall r,
          In r (rows (db w)) ->
          agrees_with_all holds name price count category r = true ->
          Item_validate r <> None)).
Proof.
  intros Hsel.
  rewrite query_item_by_parameters_eq. cbv zeta. cbn [fst].
  rewrite Hsel. cbn [fst].
  rewrite (filter_ext _ _ (satisfies_supplied holds name price count category)).
  unfold answer.
  destruct (validate_all _) as [items |] eqn:E.
  - split.
    + intros _ r Hin Hagree.
      apply (validate_all_each _ _ E). apply filter_In. split; assumption.
    + intros _. exists items. reflexivity.
  - split.
    + intros [items H]. discriminate H.
    + intros Hall. exfalso.
      destruct (validate_all_none _ E) as [r [Hin Hr]].
      apply filter_In in Hin. destruct Hin as [Hin Hagree].
      exact (Hall r Hin Hagree Hr).
Qed.

(** X9. On such a store, when the listing succeeds, every filtered query
    on the same store succeeds too, and each item of its selection is an
    item of the listing; the selection is never longer than the listing. *)
Theorem query_selects_from_listing
    (rows : Store -> list dict) (holds : string -> pyval -> dict -> bool)
    (name : option string) (price : option float) (count : option Z)
    (category : option Category) (w : World Store) (all : list Item) :
  select_contract execute rows holds ->
  fst (index execute w) = inr (index_body all) ->
  exists selection,
    fst (query_item_by_parameters execute name price count category w)
    = inr (query_body name price count category selection)
    /\ incl selection all
    /\ (length selection <= length all)%nat.
Proof.
  intros Hsel Hindex.
  rewrite index_eq in Hindex. cbv zeta in Hindex. cbn [fst] in Hindex.
  rewrite Hsel in Hindex. cbn [fst] in Hindex. rewrite filter_all in Hindex.
  unfold answer in Hindex.
  destruct (validate_all (rows (db w))) as [items |] eqn:E; [| discriminate].
  assert (items = all) as ->.
  { apply map_PModel_inj. unfold index_body in Hindex. congruence. }
  rewrite query_item_by_parameters_eq. cbv zeta. cbn [fst].
  rewrite Hsel. cbn [fst]. unfold answer.
  destruct (validate_all_filter
              (satisfies holds (supplied_filters name price count category))
              _ _ E) as [sel [Hv [Hincl Hlen]]].
  exists sel. rewrite Hv. split; [reflexivity | split; assumption].
Qed.

Lemma route_query_typed_rejects
    (name : option string) (price : option float) (count : option Z)
    (category : option string) (w : World Store) :
  fst (route_query_item_by_parameters execute name price count category w)
  = inl RequestValidationError
  <-> exists s, category = Some s /\ s <> "tools" /\ s <> "consumables".
Proof.
  unfold route_query_item_by_parameters, param_Category. split.
  - destruct category as [s |].
    + destruct (Category_of_value s) as [c |] eqn:E.
      * rewrite query_item_by_parameters_eq. cbv zeta. cbn [fst].
        unfold answer. destruct (validate_all _); discriminate.
      * intros _. exists s. split; [reflexivity |].
        split; intros ->; discriminate E.
    + rewrite query_item_by_parameters_eq. cbv zeta. cbn [fst].
      unfold answer. destruct (validate_all _); discriminate.
  - intros [s [-> [Ht Hc]]].
    rewrite (Category_of_value_other s Ht Hc). reflexivity.
Qed.

(** X10. The filtered query route, taking its parameters as the text of
    the address, refuses a request exactly when the text of [price] is not a
    float, or the text of [count] is not an int, or the text of [category] is
    not the value of a member.  It puts no constraint on the values: any
    name, any float and any int are passed on as filters. *)
Theorem route_query_rejects_exactly
    (float_of_text : string -> option float) (int_of_text : string -> option Z)
    (name price count category : option string) (w : World Store) :
  fst (route_query_item_by_parameters_text execute float_of_text int_of_text
         name price count category w)
  = inl RequestValidationError
  <-> (exists t, price = Some t /\ float_of_text t = None)
      \/ (exists t, count = Some t /\ int_of_text t = None)
      \/ (exists s, category = Some s /\ s <> "tools" /\ s <> "consumables").
Proof.
  unfold route_query_item_by_parameters_text, param_number.
  destruct price as [pt |].
  - destruct (float_of_text pt) as [p |] eqn:Ep.
    + destruct count as [ct |].
      * destruct (int_of_text ct) as [c |] eqn:Ec.
        -- rewrite route_query_typed_rejects. split.
           ++ intros H. right. right. exact H.
           ++ intros [[t [H E]] | [[t [H E]] | H]].
              ** injection H as <-. congruence.
              ** injection H as <-. congruence.
              ** exact H.
        -- split; [| reflexivity].
           intros _. right. left. exists ct. split; [reflexivity | exact Ec].
      * rewrite route_query_typed_rejects. split.
        -- intros H. right. right. exact H.
        -- intros [[t [H E]] | [[t [H E]] | H]].
           ++ injection H as <-. congruence.
           ++ discriminate H.
           ++ exact H.
    + split; [| reflexivity].
      intros _. left. exists pt. split; [reflexivity | exact Ep].
  - destruct count as [ct |].
    + destruct (int_of_text ct) as [c |] eqn:Ec.
      * rewrite route_query_typed_rejects. split.
        -- intros H. right. right. exact H.
        -- intros [[t [H E]] | [[t [H E]] | H]].
           ++ discriminate H.
           ++ injection H as <-. congruence.
           ++ exact H.
      * split; [| reflexivity].
        intros _. right. left. exists ct. split; [reflexivity | exact Ec].
    + rewrite route_query_typed_rejects. split.
      * intros H. right. right. exact H.
      * intros [[t [H E]] | [[t [H E]] | H]].
        -- discriminate H.
        -- discriminate H.
        -- exact H.
Qed.

(** C3, a defect of the code. The request is valid and the lookup of
    [item_id] answers with no record.  The handler issues the lookup only
    and returns the pair of the message "Item not found" and the number 404;
    the route declares no status, so that what the client receives is a
    response with status 200 whose body is the array of the message and the
    number 404: not a 404 response. *)
Theorem update_absent_item_answers_200
    (item_id : Z) (name : option string) (price : option float)
    (count : option Z) (category : option string) (w : World Store) :
  let lookup := supabase.mkQuery "items" (supabase.Select "*")
                  [("id", PInt item_id)] in
  update_request_ok item_id name price count category ->
  fst (execute lookup (db w)) = [] ->
  http_update execute item_id name price count category w
  = (JSONResponse 200
       (PList [PDict [("message", PStr "Item not found")]; PInt 404]),
     after execute lookup w)
  /\ status_of (fst (http_update execute item_id name price count category w))
     <> 404.
Proof.
  cbv zeta. intros Hok Hnone.
  destruct (ok_checks _ _ _ _ _ Hok) as [Hcat Hchecks].
  assert (E : http_update execute item_id name price count category w
              = (JSONResponse 200
                   (PList [PDict [("message", PStr "Item not found")]; PInt 404]),
                 after execute
                   (supabase.mkQuery "items" (supabase.Select "*")
                      [("id", PInt item_id)]) w)).
  { unfold http_update, route_update. rewrite Hcat, Hchecks.
    rewrite (proj1 (update_absent_item _ execute item_id name price count
                      (member_of category) w Hnone)).
    reflexivity. }
  split; [exact E |].
  rewrite E. cbn. discriminate.
Qed.

(** C4, a defect of the code. The request has a valid [item_id] and no
    optional parameter, and the lookup finds a record.  The handler issues
    the lookup only and returns the pair of the message "No fields to update"
    and the number 400; what the client receives is a response with status
    200 whose body is the array of the message and the number 400: not a 400
    response. *)
Theorem update_without_fields_answers_200 (item_id : Z) (w : World Store) :
  let lookup := supabase.mkQuery "items" (supabase.Select "*")
                  [("id", PInt item_id)] in
  0 <= item_id ->
  fst (execute lookup (db w)) <> [] ->
  http_update execute item_id None None None None w
  = (JSONResponse 200
       (PList [PDict [("message", PStr "No fields to update")]; PInt 400]),
     after execute lookup w)
  /\ status_of (fst (http_update execute item_id None None None None w))
     <> 400.
Proof.
  cbv zeta. intros Hid Hsome.
  assert (E : http_update execute item_id None None None None w
              = (JSONResponse 200
                   (PList [PDict [("message", PStr "No fields to update")];
                           PInt 400]),
                 after execute
                   (supabase.mkQuery "items" (supabase.Select "*")
                      [("id", PInt item_id)]) w)).
  { unfold http_update, route_update, param_Category, check_item_id.
    apply Z.leb_le in Hid. rewrite Hid. cbn [andb check_name check_price check_count].
    rewrite (proj1 (update_without_fields _ execute item_id w Hsome)).
    reflexivity. }
  split; [exact E |].
  rewrite E. cbn. discriminate.
Qed.

(** C5, a defect of the code. The route declares that it returns a dict of
    items.  When the delete matches no record, the handler returns the dict
    whose [deleted] entry is the empty list, which is no item: the route
    fails with the response validation error, answered with status 500,
    after the delete has been issued.  When records are deleted and the first
    of them is a valid item, the route returns that item under [deleted]. *)
Theorem delete_absent_item_fails (item_id : Z) (w : World Store) :
  let q := supabase.mkQuery "items" supabase.Delete [("id", PInt item_id)] in
  (fst (execute q (db w)) = [] ->
   route_delete_item execute item_id w
   = (inl ResponseValidationError, after execute q w)
   /\ respond (fst (route_delete_item execute item_id w)) = ErrorResponse 500)
  /\ (forall first rest item,
        fst (execute q (db w)) = first :: rest ->
        Item_validate first = Some item ->
        route_delete_item execute item_id w
        = (inr (PDict [("deleted", PModel item)]), after execute q w)).
Proof.
  cbv zeta. split.
  - intros Hnone.
    assert (E : route_delete_item execute item_id w
                = (inl ResponseValidationError,
                   after execute
                     (supabase.mkQuery "items" supabase.Delete
                        [("id", PInt item_id)]) w)).
    { unfold route_delete_item, bind.
      rewrite (proj1 (delete_item_result _ execute item_id w) Hnone).
      reflexivity. }
    split; [exact E |]. rewrite E. reflexivity.
  - intros first rest item Hsome Hitem.
    unfold route_delete_item, bind.
    rewrite (proj2 (delete_item_result _ execute item_id w) first rest Hsome).
    cbn. rewrite Hitem. reflexivity.
Qed.

End Extras.

(** *** Concrete runs for the further properties *)

Lemma Category_lookup_by_value_witness :
  Category_of_value "consumables" = Some CONSUMABLES.
Proof. apply (Category_lookup_by_value "consumables" CONSUMABLES). reflexivity. Defined.

(** The record that the reference store keeps for Nails builds Nails. *)
Lemma Item_round_trip_witness :
  Item_validate (model_dump Nails) = Some Nails
  /\ Item_validate (stored 2 Nails) = Some Nails.
Proof.
  split.
  - apply (Item_round_trip Nails).
  - apply (proj2 (Item_round_trip Nails) 2 (stored 2 Nails)).
    split; [reflexivity |].
    intros k Hk. cbn.
    destruct (String.eqb_spec k "id") as [E | _]; [contradiction | reflexivity].
Defined.

(** A body without a price. *)
Lemma add_item_requires_all_fields_witness :
  route_add_item RefStore.execute
    [("name", PStr "Saw"); ("count", PInt 2); ("category", PStr "tools")]
    (RefStore.world sample_store)
  = (inl RequestValidationError, RefStore.world sample_store).
Proof.
  apply (add_item_requires_all_fields _ RefStore.execute).
  right. left. reflexivity.
Defined.

(** Renaming Nails to Screws in the sample store. *)
Lemma update_sends_supplied_fields_witness :
  update RefStore.execute 2 (Some "Screws") None None (Some TOOLS)
    (RefStore.world sample_store)
  = (inr (PTuple
            [PDict [ ("message", PStr "Item updated successfully");
                     ("data", PList [PDict (stored 2 (mkItem "Screws" f1_99 100 TOOLS))]) ];
             PInt 200]),
     mkWorld
       (RefStore.mkState
          [stored 0 Hammer; stored 1 Pliers;
           stored 2 (mkItem "Screws" f1_99 100 TOOLS)] 3)
       [ supabase.mkQuery "items" (supabase.Select "*") [("id", PInt 2)];
         supabase.mkQuery "items"
           (supabase.Update [("name", PStr "Screws"); ("category", PStr "tools")])
           [("id", PInt 2)] ]).
Proof.
  rewrite (update_sends_supplied_fields _ RefStore.execute 2 (Some "Screws") None
             None (Some TOOLS) (RefStore.world sample_store)).
  - reflexivity.
  - vm_compute. discriminate.
  - left. discriminate.
  - intros p H. discriminate H.
Defined.

(** The bounds of the update route: accepted at the bounds, refused for a
    price that is not a number. *)
Lemma route_update_accepts_exactly_witness :
  route_update RefStore.execute 0 (Some "Crowbars") (Some f1_99) (Some 0)
    (Some "tools") (RefStore.world sample_store)
  = update RefStore.execute 0 (Some "Crowbars") (Some f1_99) (Some 0)
      (Some TOOLS) (RefStore.world sample_store)
  /\ route_update RefStore.execute 0 None (Some S754_nan) None None
       (RefStore.world sample_store)
     = (inl RequestValidationError, RefStore.world sample_store).
Proof.
  split.
  - apply (proj1 (route_update_accepts_exactly _ RefStore.execute 0
                    (Some "Crowbars") (Some f1_99) (Some 0) (Some "tools")
                    (RefStore.world sample_store))).
    split; [lia | split; [| split; [| split]]].
    + intros n H. injection H as <-. simpl. lia.
    + intros p H. injection H as <-. reflexivity.
    + intros c H. injection H as <-. lia.
    + intros s H. injection H as <-. left. reflexivity.
  - apply (proj2 (route_update_accepts_exactly _ RefStore.execute 0
                    None (Some S754_nan) None None
                    (RefStore.world sample_store))).
    intros [_ [_ [Hprice _]]].
    specialize (Hprice S754_nan eq_refl). discriminate Hprice.
Defined.

(** With a record that is not a valid item in the store, the listing fails,
    and the filtered query for tools, which does not select that record,
    succeeds. *)
Lemma query_validates_selected_only_witness :
  fst (index RefStore.execute (RefStore.world odd_store)) = inl ValidationError
  /\ exists items,
       fst (query_item_by_parameters RefStore.execute None None None (Some TOOLS)
              (RefStore.world odd_store))
       = inr (query_body None None None (Some TOOLS) items).
Proof.
  split; [reflexivity |].
  apply (proj2 (query_validates_selected_only _ RefStore.execute RefStore.rows
                  RefStore.holds None None None (Some TOOLS)
                  (RefStore.world odd_store) RefStore_select)).
  intros r Hin Hagree.
  cbn in Hin.
  destruct Hin as [<- | [<- | [<- | [<- | []]]]].
  - vm_compute. discriminate.
  - vm_compute. discriminate.
  - vm_compute. discriminate.
  - vm_compute in Hagree. discriminate Hagree.
Defined.

(** On the sample store the items with count 20 are among the listed ones. *)
Lemma query_selects_from_listing_witness :
  exists selection,
    fst (query_item_by_parameters RefStore.execute None None (Some 20) None
           (RefStore.world sample_store))
    = inr (query_body None None (Some 20) None selection)
    /\ incl selection [Hammer; Pliers; Nails]
    /\ (length selection <= length [Hammer; Pliers; Nails])%nat.
Proof.
  apply (query_selects_from_listing _ RefStore.execute RefStore.rows
           RefStore.holds None None (Some 20) None
           (RefStore.world sample_store) [Hammer; Pliers; Nails]).
  - exact RefStore_select.
  - reflexivity.
Defined.

(** The count "abc" is refused, whatever the other parameters are, by a
    conversion that takes the text "20" and nothing else for an int. *)
Lemma route_query_rejects_exactly_witness :
  fst (route_query_item_by_parameters_text RefStore.execute
         (fun _ => None)
         (fun t => if String.eqb t "20" then Some 20 else None)
         (Some "") None (Some "abc") (Some "tools")
         (RefStore.world sample_store))
  = inl RequestValidationError.
Proof.
  apply (route_query_rejects_exactly _ RefStore.execute).
  right. left. exists "abc". split; reflexivity.
Defined.

(** Creating Hammer, whose price is finite, in the empty store. *)
Lemma add_item_returns_input_witness :
  add_item RefStore.execute Hammer (RefStore.world RefStore.empty)
  = (inr (PDict [("added", PModel Hammer)]),
     mkWorld (RefStore.mkState [stored 1 Hammer] 2)
       [supabase.mkQuery "items"
          (supabase.Insert (body_of "Hammer" f9_99 20 "tools")) []])
  /\ ~ carries_id (PModel Hammer).
Proof.
  apply (add_item_returns_input _ RefStore.execute Hammer
           (RefStore.world RefStore.empty)).
  reflexivity.
Defined.

(** C6, as stated, fails: an item whose price is plus infinity is a valid
    item, and creating it returns nothing: the store call raises
    [ValueError] and no insert is issued. *)
Lemma add_item_infinite_price_raises :
  Item_validate (body_of "Anvil" (S754_infinity false) 1 "tools")
  = Some (mkItem "Anvil" (S754_infinity false) 1 TOOLS)
  /\ route_add_item RefStore.execute
       (body_of "Anvil" (S754_infinity false) 1 "tools")
       (RefStore.world RefStore.empty)
     = (inl ValueError, RefStore.world RefStore.empty)
  /\ fst (add_item RefStore.execute (mkItem "Anvil" (S754_infinity false) 1 TOOLS)
            (RefStore.world RefStore.empty))
     <> inr (PDict [("added", PModel (mkItem "Anvil" (S754_infinity false) 1 TOOLS))]).
Proof.
  split; [reflexivity | split; [reflexivity |]].
  vm_compute. discriminate.
Qed.

(** An item with an empty name, the price -1.0 and the count -5 is created
    in the sample store. *)
Lemma create_has_no_value_constraints_witness :
  route_add_item RefStore.execute (body_of "" f_minus_1 (-5) "consumables")
    (RefStore.world sample_store)
  = (inr (PDict [("added", PModel (mkItem "" f_minus_1 (-5) CONSUMABLES))]),
     mkWorld
       (RefStore.mkState
          [stored 0 Hammer; stored 1 Pliers; stored 2 Nails;
           stored 3 (mkItem "" f_minus_1 (-5) CONSUMABLES)] 4)
       [supabase.mkQuery "items"
          (supabase.Insert (body_of "" f_minus_1 (-5) "consumables")) []]).
Proof.
  apply (proj1 (create_has_no_value_constraints _ RefStore.execute)
           "" f_minus_1 (-5) CONSUMABLES (RefStore.world sample_store)).
  reflexivity.
Defined.

(** Updating the absent item 7 of the sample store: status 200. *)
Lemma update_absent_item_answers_200_witness :
  http_update RefStore.execute 7 (Some "Bolt") None (Some 3) None
    (RefStore.world sample_store)
  = (JSONResponse 200
       (PList [PDict [("message", PStr "Item not found")]; PInt 404]),
     mkWorld sample_store
       [supabase.mkQuery "items" (supabase.Select "*") [("id", PInt 7)]])
  /\ status_of (fst (http_update RefStore.execute 7 (Some "Bolt") None (Some 3)
                       None (RefStore.world sample_store)))
     <> 404.
Proof.
  apply (update_absent_item_answers_200 _ RefStore.execute 7 (Some "Bolt") None
           (Some 3) None (RefStore.world sample_store)).
  - split; [lia | split; [| split; [| split]]].
    + intros n H. injection H as <-. simpl. lia.
    + intros p H. discriminate H.
    + intros c H. injection H as <-. lia.
    + intros s H. discriminate H.
  - reflexivity.
Defined.

(** Updating item 1 of the sample store without any field: status 200. *)
Lemma update_without_fields_answers_200_witness :
  http_update RefStore.execute 1 None None None None
    (RefStore.world sample_store)
  = (JSONResponse 200
       (PList [PDict [("message", PStr "No fields to update")]; PInt 400]),
     mkWorld sample_store
       [supabase.mkQuery "items" (supabase.Select "*") [("id", PInt 1)]])
  /\ status_of (fst (http_update RefStore.execute 1 None None None None
                       (RefStore.world sample_store)))
     <> 400.
Proof.
  apply (update_without_fields_answers_200 _ RefStore.execute 1
           (RefStore.world sample_store)).
  - lia.
  - vm_compute. discriminate.
Defined.

(** Deleting the absent item 7 and the present item 1 of the sample
    store. *)
Lemma delete_absent_item_fails_witness :
  (route_delete_item RefStore.execute 7 (RefStore.world sample_store)
   = (inl ResponseValidationError,
      mkWorld sample_store
        [supabase.mkQuery "items" supabase.Delete [("id", PInt 7)]])
   /\ respond (fst (route_delete_item RefStore.execute 7
                      (RefStore.world sample_store)))
      = ErrorResponse 500)
  /\ route_delete_item RefStore.execute 1 (RefStore.world sample_store)
     = (inr (PDict [("deleted", PModel Pliers)]),
        mkWorld (RefStore.mkState [stored 0 Hammer; stored 2 Nails] 3)
          [supabase.mkQuery "items" supabase.Delete [("id", PInt 1)]]).
Proof.
  split.
  - apply (proj1 (delete_absent_item_fails _ RefStore.execute 7
                    (RefStore.world sample_store))).
    reflexivity.
  - apply (proj2 (delete_absent_item_fails _ RefStore.execute 1
                    (RefStore.world sample_store))
             (stored 1 Pliers) [] Pliers).
    + reflexivity.
    + reflexivity.
Defined.

(** An update that returns, on the sample store. *)
Lemma update_queries_and_status_witness :
  exists body status,
    PTuple [PDict [ ("message", PStr "Item updated successfully");
                    ("data", PList [PDict (stored 2 (mkItem "Nails" f1_99 7 CONSUMABLES))]) ];
            PInt 200]
    = PTuple [PDict body; PInt status]
    /\ (status = 200 \/ status = 400 \/ status = 404)
    /\ exists m, dict_get "message" body = Some (PStr m).
Proof.
  apply (proj2 (update_queries_and_status _ RefStore.execute 2 None None
                  (Some 7) None (RefStore.world sample_store))).
  reflexivity.
Defined.

(** A price of plus infinity passes the bound of the route and stops the
    update of item 1 of the sample store. *)
Lemma update_non_finite_price_raises_witness :
  route_update RefStore.execute 1 None (Some (S754_infinity false)) None None
    (RefStore.world sample_store)
  = (inl ValueError,
     mkWorld sample_store
       [supabase.mkQuery "items" (supabase.Select "*") [("id", PInt 1)]]).
Proof.
  change (route_update RefStore.execute 1 None (Some (S754_infinity false)) None
            None (RefStore.world sample_store))
    with (update RefStore.execute 1 None (Some (S754_infinity false)) None None
            (RefStore.world sample_store)).
  apply (update_non_finite_price_raises _ RefStore.execute 1 None
           (S754_infinity false) None None (RefStore.world sample_store)).
  - vm_compute. discriminate.
  - reflexivity.
Defined.
